(** * Organic food storefront: session store, route gate and cart manager

    A shallow embedding of the client logic of [frontend/src/App.js]:
    the [AuthProvider] session store, the [ProtectedRoute] gate, the
    navigation badge, the add-to-cart control of [ProductsPage] and the
    cart of [CartPage]; then the forms, the loading of the catalogue, the
    order history and the admin panel.

    JavaScript numbers are IEEE 754 binary64 values; they are embedded as
    the kernel's primitive floats, so that [+], [*] and [===] round and
    compare as the browser does.  A JavaScript object used as a map is a
    finite map with string keys, read the way the code reads it, along
    the prototype chain ([js_get]).  A [Promise] that has settled is a
    [Reply]; an asynchronous function takes the replies it awaits as
    arguments and returns the component state together with the browser
    (storage, default headers, dialogs, console and the requests sent). *)

From Stdlib Require Import ZArith Lia Floats Zpower.
From stdpp Require Import base option strings list gmap.

Set Default Proof Using "Type".
Local Open Scope string_scope.

(** ** JavaScript values *)

Abbreviation number := float (only parsing).

(** [Array.prototype.reduce(callback, initialValue)]. *)
Definition reduce {A B : Type} (callback : B -> A -> B) (initialValue : B)
    (array : list A) : B :=
  fold_left callback array initialValue.

(** Truthiness of a value that is a string or [null]: [null] and the
    empty string are falsy. *)
Definition truthy (v : option string) : bool :=
  match v with
  | Some s => negb (String.eqb s "")
  | None => false
  end.

(** [v || fallback] for such a value. *)
Definition or_else (v : option string) (fallback : string) : string :=
  match v with
  | Some s => if truthy v then s else fallback
  | None => fallback
  end.

(** ** Data model (the records the backend returns) *)

Record User := {
  user_id : string;
  user_name : string;
  user_email : string;
  user_role : string
}.

Record Product := {
  id : string;
  name : string;
  description : string;
  price : number;
  stock_quantity : number;
  image_url : string;
  organic_certification : bool;
  farm_origin : string
}.

Record CartItem := {
  item_id : string;
  product_id : string;
  quantity : number
}.

(** ** HTTP through axios *)

Inductive Method := GET | POST | DELETE.

(** The only request body the modelled code sends:
    [{ product_id: productId, quantity: 1 }]. *)
Record CartBody := {
  body_product_id : string;
  body_quantity : number
}.

Record Request := {
  method : Method;
  url : string;
  authorization : option string;
  body : option CartBody
}.

(** The error of a rejected request, as far as the code reads it:
    [error.response?.data?.detail]. *)
Record ErrorData := { detail : option string }.
Record ErrorResponse := { data : option ErrorData }.
Record AxiosError := { response : option ErrorResponse }.

Inductive Reply (A : Type) :=
  | Fulfilled (value : A)
  | Rejected (error : AxiosError).
Arguments Fulfilled {A} value.
Arguments Rejected {A} error.

Definition error_detail (error : AxiosError) : option string :=
  r ← response error; d ← data r; detail d.

(** ** The browser: everything outside React state that the code touches *)

Record Browser := {
  localStorage : gmap string string;
  axios_headers : gmap string string;
  alerts : list string;
  console : list string;
  sent : list Request
}.

Definition setItem (k v : string) (w : Browser) : Browser :=
  {| localStorage := <[k := v]> (localStorage w);
     axios_headers := axios_headers w;
     alerts := alerts w; console := console w; sent := sent w |}.

Definition removeItem (k : string) (w : Browser) : Browser :=
  {| localStorage := delete k (localStorage w);
     axios_headers := axios_headers w;
     alerts := alerts w; console := console w; sent := sent w |}.

Definition set_header (k v : string) (w : Browser) : Browser :=
  {| localStorage := localStorage w;
     axios_headers := <[k := v]> (axios_headers w);
     alerts := alerts w; console := console w; sent := sent w |}.

Definition delete_header (k : string) (w : Browser) : Browser :=
  {| localStorage := localStorage w;
     axios_headers := delete k (axios_headers w);
     alerts := alerts w; console := console w; sent := sent w |}.

Definition alert (message : string) (w : Browser) : Browser :=
  {| localStorage := localStorage w;
     axios_headers := axios_headers w;
     alerts := alerts w ++ [message];
     console := console w; sent := sent w |}.

Definition console_log (message : string) (w : Browser) : Browser :=
  {| localStorage := localStorage w;
     axios_headers := axios_headers w;
     alerts := alerts w;
     console := console w ++ [message]; sent := sent w |}.

(** A request leaves with the default [Authorization] header installed at
    that moment. *)
Definition axios (m : Method) (u : string) (b : option CartBody)
    (w : Browser) : Browser :=
  {| localStorage := localStorage w;
     axios_headers := axios_headers w;
     alerts := alerts w; console := console w;
     sent := sent w ++ [ {| method := m; url := u;
                            authorization := axios_headers w !! "Authorization";
                            body := b |} ] |}.

Definition axios_many (m : Method) (us : list string) (w : Browser) : Browser :=
  fold_left (fun w u => axios m u None w) us w.

(** ** A plain object used as a map from identifier to product

    [productMap] starts as [{}] and is only ever written by
    [productMap[key] = product].  Such an object is given by a finite map:
    an assignment under a key other than [__proto__] adds or replaces an
    own property, and an assignment under [__proto__] replaces the
    prototype of the object, which a read of [__proto__] returns; the
    entry of the finite map under [__proto__], when there is one, is that
    prototype.  So writing is [insert] for every key.

    Reading is more than a lookup: a key that has no entry is found along
    the prototype chain when it names a property of the product that was
    installed as prototype, or a property of [Object.prototype]. *)

Definition object_prototype_names : list string :=
  [ "constructor"; "__defineGetter__"; "__defineSetter__"; "hasOwnProperty";
    "__lookupGetter__"; "__lookupSetter__"; "isPrototypeOf";
    "propertyIsEnumerable"; "toString"; "valueOf"; "__proto__";
    "toLocaleString" ].

(** Truthiness of a number: [0], [-0] and [NaN] are falsy. *)
Definition number_truthy (x : number) : bool :=
  negb (PrimFloat.eqb x 0%float) && PrimFloat.eqb x x.

(** Truthiness of the property [k] of a product object, when the object
    has such a property; a product object has the properties of the
    record [Product], all of them own. *)
Definition product_property (p : Product) (k : string) : option bool :=
  if String.eqb k "id" then Some (truthy (Some (id p)))
  else if String.eqb k "name" then Some (truthy (Some (name p)))
  else if String.eqb k "description" then Some (truthy (Some (description p)))
  else if String.eqb k "price" then Some (number_truthy (price p))
  else if String.eqb k "stock_quantity"
       then Some (number_truthy (stock_quantity p))
  else if String.eqb k "image_url" then Some (truthy (Some (image_url p)))
  else if String.eqb k "organic_certification"
       then Some (organic_certification p)
  else if String.eqb k "farm_origin" then Some (truthy (Some (farm_origin p)))
  else None.

(** Truthiness of what a key without an entry inherits: a property of
    the installed prototype, else a property of [Object.prototype] (a
    function or an object), else nothing ([undefined]). *)
Definition inherited (m : gmap string Product) (k : string) : bool :=
  match m !! "__proto__" ≫= (fun proto => product_property proto k) with
  | Some b => b
  | None => existsb (String.eqb k) object_prototype_names
  end.

(** What [object[key]] evaluates to, as far as the code looks at it: a
    product, another truthy value (which has no [price]), or a falsy
    one. *)
Inductive Property :=
  | AProduct (p : Product)
  | Truthy
  | Falsy.

Definition js_get (m : gmap string Product) (k : string) : Property :=
  match m !! k with
  | Some p => AProduct p
  | None => if inherited m k then Truthy else Falsy
  end.

Definition is_truthy (v : Property) : bool :=
  match v with
  | AProduct _ | Truthy => true
  | Falsy => false
  end.

Section Client.

(** [process.env.REACT_APP_BACKEND_URL] *)
Variable BACKEND_URL : string.

Definition API : string := BACKEND_URL ++ "/api".

(** ** AuthProvider (App.js 20-53) *)

Record AuthState := {
  user : option User;
  token : option string
}.

(** [useState(null)], [useState(localStorage.getItem('token'))] *)
Definition auth_init (w : Browser) : AuthState :=
  {| user := None; token := localStorage w !! "token" |}.

Definition login (userData : User) (userToken : string)
    (s : AuthState) (w : Browser) : AuthState * Browser :=
  ({| user := Some userData; token := Some userToken |},
   set_header "Authorization" ("Bearer " ++ userToken)
     (setItem "token" userToken w)).

Definition logout (s : AuthState) (w : Browser) : AuthState * Browser :=
  ({| user := None; token := None |},
   delete_header "Authorization" (removeItem "token" w)).

(** The effect on [token], up to the point where the request is in
    flight. *)
Definition revalidation_start (s : AuthState) (w : Browser) : Browser :=
  match token s with
  | Some t =>
      if truthy (token s)
      then axios GET (API ++ "/auth/me") None
             (set_header "Authorization" ("Bearer " ++ t) w)
      else w
  | None => w
  end.

(** The whole effect, once the request has settled with [me]. *)
Definition revalidation (me : Reply User) (s : AuthState) (w : Browser)
    : AuthState * Browser :=
  if truthy (token s) then
    let w1 := revalidation_start s w in
    match me with
    | Fulfilled value => ({| user := Some value; token := token s |}, w1)
    | Rejected _ => logout s w1
    end
  else (s, w).

(** [isAuthenticated: !!user] *)
Definition isAuthenticated (s : AuthState) : bool :=
  match user s with
  | Some _ => true
  | None => false
  end.

(** ** ProtectedRoute (App.js 1038-1050) *)

Inductive Outcome :=
  | Navigate (to : string)
  | Render.

Definition ProtectedRoute (adminOnly : bool) (s : AuthState) : Outcome :=
  if negb (isAuthenticated s) then Navigate "/login"
  else if adminOnly &&
          negb (match user s with
                | Some u => String.eqb (user_role u) "admin"
                | None => false
                end)
  then Navigate "/products"
  else Render.

(** The capability a route asks for, and the routing table of [App]:
    a public route is not wrapped at all. *)
Inductive Capability := Public | Authenticated | Admin.

Definition gate (c : Capability) (s : AuthState) : Outcome :=
  match c with
  | Public => Render
  | Authenticated => ProtectedRoute false s
  | Admin => ProtectedRoute true s
  end.

(** The [Routes] of [App] (App.js 1059-1083). *)
Definition routes : list (string * Capability) :=
  [ ("/", Public); ("/login", Public); ("/register", Public);
    ("/products", Authenticated); ("/cart", Authenticated);
    ("/orders", Authenticated); ("/admin", Admin) ].

Definition route (path : string) (s : AuthState) : option Outcome :=
  c ← (list_to_map routes : gmap string Capability) !! path; Some (gate c s).

(** ** Navigation (App.js 64-83) *)

Definition fetchCartCount (cart : Reply (list CartItem)) (s : AuthState)
    (cartCount : number) (w : Browser) : number * Browser :=
  match user s with
  | Some _ =>
      let w1 := axios GET (API ++ "/cart") None w in
      match cart with
      | Fulfilled value =>
          (reduce (fun sum item => (sum + quantity item)%float) 0%float value,
           w1)
      | Rejected _ => (cartCount, console_log "Error fetching cart count:" w1)
      end
  | None => (cartCount, w)
  end.

(** [{cartCount > 0 && <Badge>{cartCount}</Badge>}] *)
Definition cart_badge (cartCount : number) : option number :=
  if PrimFloat.ltb 0%float cartCount then Some cartCount else None.

(** ** ProductsPage (App.js 464-604) *)

Record ProductsState := {
  pp_products : list Product;
  pp_selectedCategory : string;
  pp_loading : bool
}.

Definition addToCart (productId : string) (created : Reply unit)
    (s : ProductsState) (w : Browser) : ProductsState * Browser :=
  let w1 := axios POST (API ++ "/cart")
              (Some {| body_product_id := productId;
                       body_quantity := 1%float |}) w in
  match created with
  | Fulfilled _ => (s, alert "Product added to cart!" w1)
  | Rejected error =>
      (s, alert ("Error adding to cart: " ++
                 or_else (error_detail error) "Unknown error") w1)
  end.

(** [disabled={product.stock_quantity === 0}] *)
Definition add_to_cart_disabled (product : Product) : bool :=
  PrimFloat.eqb (stock_quantity product) 0%float.

Definition add_to_cart_label (product : Product) : string :=
  if PrimFloat.eqb (stock_quantity product) 0%float
  then "Out of Stock" else "Add to Cart".

(** ** CartPage (App.js 607-768) *)

(** [products] is the object [productMap] (or the initial [{}]); the
    code reads it with [js_get]. *)
Record CartState := {
  cartItems : list CartItem;
  products : gmap string Product;
  loading : bool
}.

(** [Promise.all]: the values in order, or the first rejection. *)
Fixpoint promise_all {A : Type} (ps : list (Reply A)) : Reply (list A) :=
  match ps with
  | [] => Fulfilled []
  | Fulfilled v :: ps' =>
      match promise_all ps' with
      | Fulfilled vs => Fulfilled (v :: vs)
      | Rejected e => Rejected e
      end
  | Rejected e :: _ => Rejected e
  end.

(** [productResponses.forEach(res => { productMap[res.data.id] = res.data })]
    on [productMap = {}]; a reply whose [id] is [__proto__] becomes the
    prototype, which is the entry under that key. *)
Definition product_map (responses : list Product) : gmap string Product :=
  fold_left (fun m p => <[id p := p]> m) responses ∅.

(** [cart] is the reply to [GET /cart]; [product i] is the reply to the
    [i]-th of the product requests, which are all sent before any of
    them is awaited. *)
Definition fetchCart (cart : Reply (list CartItem))
    (product : nat -> Reply Product)
    (s : CartState) (w : Browser) : CartState * Browser :=
  let w1 := axios GET (API ++ "/cart") None w in
  match cart with
  | Fulfilled value =>
      let productIds := map product_id value in
      let w2 := axios_many GET
                  (map (fun i => API ++ "/products/" ++ i) productIds) w1 in
      match promise_all (map product (seq 0 (length productIds))) with
      | Fulfilled productResponses =>
          ({| cartItems := value;
              products := product_map productResponses;
              loading := false |}, w2)
      | Rejected _ =>
          ({| cartItems := value; products := products s; loading := false |},
           console_log "Error fetching cart:" w2)
      end
  | Rejected _ =>
      ({| cartItems := cartItems s; products := products s; loading := false |},
       console_log "Error fetching cart:" w1)
  end.

Definition removeFromCart (itemId : string) (deleted : Reply unit)
    (cart : Reply (list CartItem)) (product : nat -> Reply Product)
    (s : CartState) (w : Browser) : CartState * Browser :=
  let w1 := axios DELETE (API ++ "/cart/" ++ itemId) None w in
  match deleted with
  | Fulfilled _ => fetchCart cart product s w1
  | Rejected error =>
      (s, alert ("Error removing item: " ++
                 or_else (error_detail error) "Unknown error") w1)
  end.

Definition getTotalPrice (s : CartState) : number :=
  reduce (fun total item =>
            let product := js_get (products s) (product_id item) in
            (total + match product with
                     | AProduct p => price p * quantity item
                     | Truthy => nan
                     | Falsy => 0
                     end)%float)
         0%float (cartItems s).

Definition proceedToCheckout (s : CartState) (w : Browser) : Browser :=
  match cartItems s with
  | [] => alert "Your cart is empty!" w
  | _ :: _ => alert "Proceeding to checkout... (Feature to be implemented)" w
  end.

(** The numbers of the order summary, before [toFixed(2)] formats them.
    The summary is rendered only once loading is over and the cart is not
    empty. *)
Record OrderSummary := {
  subtotal : number;
  delivery : string;
  total : number
}.

Definition order_summary (s : CartState) : option OrderSummary :=
  if loading s then None
  else match cartItems s with
       | [] => None
       | _ :: _ =>
           Some {| subtotal := getTotalPrice s;
                   delivery := "49";
                   total := (getTotalPrice s + 49)%float |}
       end.

(** The cart lines that are rendered: [if (!product) return null]. *)
Definition rendered_items (s : CartState) : list CartItem :=
  filter (fun item => is_truthy (js_get (products s) (product_id item)) = true)
         (cartItems s).

End Client.

(** ** Reference notions used to state the properties *)

(** The sum of a list of numbers, added from the left starting at [acc],
    the order in which JavaScript evaluates [acc + x1 + x2 + ...]. *)
Fixpoint sum_from (acc : number) (xs : list number) : number :=
  match xs with
  | [] => acc
  | x :: xs' => sum_from (acc + x)%float xs'
  end.

Definition js_sum (xs : list number) : number := sum_from 0%float xs.

(** What one cart line is worth against a product map: price times
    quantity when the read gives a product, [NaN] (the product of
    [undefined] and the quantity) when it gives another truthy value, and
    0 when it gives a falsy one. *)
Definition line_amount (products : gmap string Product) (item : CartItem)
    : number :=
  match js_get products (product_id item) with
  | AProduct p => (price p * quantity item)%float
  | Truthy => nan
  | Falsy => 0%float
  end.

(** The request [axios.get(u)] or [axios.delete(u)] puts on the wire when
    the default credential is [auth]. *)
Definition plain_request (m : Method) (auth : option string) (u : string)
    : Request :=
  {| method := m; url := u; authorization := auth; body := None |}.

(** The requests one run of [fetchCart] sends: the cart, then one product
    request per row when the cart arrived. *)
Definition fetch_requests (api : string) (auth : option string)
    (cart : Reply (list CartItem)) : list Request :=
  plain_request GET auth (api ++ "/cart") ::
  match cart with
  | Fulfilled value =>
      map (fun item =>
             plain_request GET auth (api ++ "/products/" ++ product_id item))
          value
  | Rejected _ => []
  end.

(** The non-negative integer a binary64 value denotes, when it is one
    (the negative zero is left out). *)
Definition SF_nat (f : spec_float) : option Z :=
  match f with
  | S754_zero false => Some 0%Z
  | S754_finite false m e =>
      if (0 <=? e)%Z then Some (Zpos m * 2 ^ e)%Z
      else if (Zpos m mod 2 ^ (- e) =? 0)%Z then Some (Zpos m / 2 ^ (- e))%Z
      else None
  | _ => None
  end.

Definition nat_value (x : number) : option Z := SF_nat (Prim2SF x).


(** The worth of a cart line as an integer, when the price and the
    quantity are non-negative integers. *)
Definition exact_line (products : gmap string Product) (item : CartItem)
    : option Z :=
  match js_get products (product_id item) with
  | AProduct p =>
      a ← nat_value (price p); q ← nat_value (quantity item); Some (a * q)%Z
  | Truthy => None
  | Falsy => Some 0%Z
  end.

Fixpoint exact_sum (lines : list (option Z)) : option Z :=
  match lines with
  | [] => Some 0%Z
  | line :: lines' => a ← line; t ← exact_sum lines'; Some (a + t)%Z
  end.

Definition exact_total (s : CartState) : option Z :=
  exact_sum (map (exact_line (products s)) (cartItems s)).

(** What a read of key [k] gives on the object filled from the product
    replies [responses] in order, said without the object: the last reply
    whose [id] is [k]; when there is none, a truthy value if [k] names a
    truthy property of the last reply whose [id] is [__proto__], or, no
    such reply having a property [k], a property of [Object.prototype]. *)
Definition reads_as (responses : list Product) (k : string) : Property :=
  match last (filter (fun p => id p = k) responses) with
  | Some p => AProduct p
  | None =>
      match last (filter (fun p => id p = "__proto__") responses) with
      | Some proto =>
          match product_property proto k with
          | Some true => Truthy
          | Some false => Falsy
          | None => if decide (k ∈ object_prototype_names) then Truthy
                    else Falsy
          end
      | None => if decide (k ∈ object_prototype_names) then Truthy else Falsy
      end
  end.

(** Whether a cart row names a property that every object inherits. *)
Definition names_inherited (item : CartItem) : Prop :=
  product_id item ∈ object_prototype_names.

(** ** Requests with a query or a form body, and the address bar

    The pages below send requests that carry a query string or a form;
    they are logged in [wire], in the order in which they leave.  [sent]
    of the browser keeps logging the requests of the cart and of the
    session store above. *)

Inductive Verb := Get | Post | Put.

(** The object [formData] of the registration form. *)
Record FormData := {
  form_name : string;
  form_email : string;
  form_password : string;
  form_phone : string;
  form_address : string
}.

Inductive FormBody :=
  | Credentials (email password : string)
  | Registration (formData : FormData).

Record Call := {
  verb : Verb;
  target : string;
  query : list (string * string);
  credential : option string;
  form : option FormBody
}.

Record Window := {
  browser : Browser;
  wire : list Call;
  pathname : string
}.

Definition call (v : Verb) (u : string) (q : list (string * string))
    (f : option FormBody) (win : Window) : Window :=
  {| browser := browser win;
     wire := wire win ++
             [ {| verb := v; target := u; query := q;
                  credential := axios_headers (browser win) !! "Authorization";
                  form := f |} ];
     pathname := pathname win |}.

(** [navigate(to)] of react-router. *)
Definition navigate (to : string) (win : Window) : Window :=
  {| browser := browser win; wire := wire win; pathname := to |}.

Definition in_browser (f : Browser -> Browser) (win : Window) : Window :=
  {| browser := f (browser win); wire := wire win; pathname := pathname win |}.

(** ** The lookup promise, step by step (App.js 38-46)

    The effect starts the lookup ([revalidation_start]); its callbacks
    run when the promise settles, against the state of that moment. *)

Definition revalidation_settle (me : Reply User) (s : AuthState) (w : Browser)
    : AuthState * Browser :=
  match me with
  | Fulfilled value => ({| user := Some value; token := token s |}, w)
  | Rejected _ => logout s w
  end.

(** What can happen to the session store, in any order. *)
Inductive SessionEvent :=
  | Login (userData : User) (userToken : string)
  | Logout
  | LookupStarts
  | LookupSettles (me : Reply User).

Section Pages.

Variable BACKEND_URL : string.

Definition session_step (ev : SessionEvent) (sw : AuthState * Browser)
    : AuthState * Browser :=
  match ev with
  | Login userData userToken => login userData userToken sw.1 sw.2
  | Logout => logout sw.1 sw.2
  | LookupStarts => (sw.1, revalidation_start BACKEND_URL sw.1 sw.2)
  | LookupSettles me => revalidation_settle me sw.1 sw.2
  end.

Definition session_run (evs : list SessionEvent) (sw : AuthState * Browser)
    : AuthState * Browser :=
  fold_left (fun sw ev => session_step ev sw) evs sw.

(** ** Navigation and HomePage: where the buttons lead (App.js 86-196) *)

Definition nav_links (s : AuthState) : list string :=
  "/" ::
  match user s with
  | Some u =>
      ["/products"; "/cart"; "/orders"] ++
      (if String.eqb (user_role u) "admin" then ["/admin"] else [])
  | None => ["/login"; "/register"]
  end.

Definition hero_target (s : AuthState) : string :=
  if isAuthenticated s then "/products" else "/register".

Definition hero_label (s : AuthState) : string :=
  if isAuthenticated s then "Shop Now" else "Get Started".

End Pages.

(** ** LoginPage (App.js 238-336) *)

Module LoginPage.

Record state := {
  email : string;
  password : string;
  loading : bool
}.

(** [response.data] of a fulfilled login. *)
Record LoginData := {
  user : User;
  access_token : string
}.

Definition setLoading (b : bool) (p : state) : state :=
  {| email := email p; password := password p; loading := b |}.

Section WithBackend.

Variable BACKEND_URL : string.

(** [handleLogin] up to the [await]. *)
Definition handleLogin_start (p : state) (win : Window) : state * Window :=
  (setLoading true p,
   call Post (API BACKEND_URL ++ "/auth/login") []
     (Some (Credentials (email p) (password p))) win).

(** [handleLogin] from the [await] on. *)
Definition handleLogin_settle (reply : Reply LoginData)
    (p : state) (s : AuthState) (win : Window) : state * AuthState * Window :=
  match reply with
  | Fulfilled value =>
      let r := login (user value) (access_token value) s (browser win) in
      (setLoading false p, r.1,
       navigate "/products" (in_browser (fun _ => r.2) win))
  | Rejected error =>
      (setLoading false p, s,
       in_browser (alert ("Login failed: " ++
                          or_else (error_detail error) "Unknown error")) win)
  end.

Definition handleLogin (reply : Reply LoginData)
    (p : state) (s : AuthState) (win : Window) : state * AuthState * Window :=
  let r := handleLogin_start p win in
  handleLogin_settle reply r.1 s r.2.

End WithBackend.

End LoginPage.

(** ** RegisterPage (App.js 338-461) *)

Module RegisterPage.

Record state := {
  formData : FormData;
  loading : bool
}.

Definition init : state :=
  {| formData := {| form_name := ""; form_email := ""; form_password := "";
                    form_phone := ""; form_address := "" |};
     loading := false |}.

(** The [name] attributes of the five inputs of the form. *)
Inductive InputName := Name | Email | Password | Phone | Address.

(** [setFormData({ ...formData, [e.target.name]: e.target.value })] *)
Definition handleChange (name : InputName) (value : string) (p : state)
    : state :=
  let f := formData p in
  {| formData :=
       match name with
       | Name =>
           {| form_name := value; form_email := form_email f;
              form_password := form_password f; form_phone := form_phone f;
              form_address := form_address f |}
       | Email =>
           {| form_name := form_name f; form_email := value;
              form_password := form_password f; form_phone := form_phone f;
              form_address := form_address f |}
       | Password =>
           {| form_name := form_name f; form_email := form_email f;
              form_password := value; form_phone := form_phone f;
              form_address := form_address f |}
       | Phone =>
           {| form_name := form_name f; form_email := form_email f;
              form_password := form_password f; form_phone := value;
              form_address := form_address f |}
       | Address =>
           {| form_name := form_name f; form_email := form_email f;
              form_password := form_password f; form_phone := form_phone f;
              form_address := value |}
       end;
     loading := loading p |}.

Definition setLoading (b : bool) (p : state) : state :=
  {| formData := formData p; loading := b |}.

Section WithBackend.

Variable BACKEND_URL : string.

Definition handleRegister (registered : Reply unit)
    (loggedIn : Reply LoginPage.LoginData)
    (p : state) (s : AuthState) (win : Window) : state * AuthState * Window :=
  let win1 := call Post (API BACKEND_URL ++ "/auth/register") []
                (Some (Registration (formData p))) win in
  match registered with
  | Fulfilled _ =>
      let win2 := call Post (API BACKEND_URL ++ "/auth/login") []
                    (Some (Credentials (form_email (formData p))
                                       (form_password (formData p))))
                    win1 in
      match loggedIn with
      | Fulfilled value =>
          let r := login (LoginPage.user value) (LoginPage.access_token value)
                     s (browser win2) in
          (setLoading false p, r.1,
           navigate "/products" (in_browser (fun _ => r.2) win2))
      | Rejected error =>
          (setLoading false p, s,
           in_browser (alert ("Registration failed: " ++
                              or_else (error_detail error) "Unknown error"))
                      win2)
      end
  | Rejected error =>
      (setLoading false p, s,
       in_browser (alert ("Registration failed: " ++
                          or_else (error_detail error) "Unknown error")) win1)
  end.

End WithBackend.

End RegisterPage.

(** ** ProductsPage: loading the catalogue (App.js 464-517) *)

Record Category := {
  cat_id : string;
  cat_name : string
}.

(** When the reply to the products request of the second effect arrives,
    among the replies [initData] waits for: before the reply to the seed
    request, before the one to the categories request, before the one to
    its own products request, or after that. *)
Inductive Arrival :=
  | BeforeSeed
  | BeforeCategories
  | BeforeProducts
  | AfterProducts.

#[global] Instance Arrival_eq_dec : EqDecision Arrival.
Proof. solve_decision. Defined.

Module Catalogue.

(** The page state: [products], [selectedCategory] and [loading] as in
    [ProductsState], together with [categories]. *)
Record state := {
  page : ProductsState;
  categories : list Category
}.

(** [useState([])], [useState('')], [useState(true)] *)
Definition init : state :=
  {| page := {| pp_products := []; pp_selectedCategory := "";
                pp_loading := true |};
     categories := [] |}.

Definition setProducts (value : list Product) (c : state) : state :=
  {| page := {| pp_products := value;
                pp_selectedCategory := pp_selectedCategory (page c);
                pp_loading := pp_loading (page c) |};
     categories := categories c |}.

Definition setCategories (value : list Category) (c : state) : state :=
  {| page := page c; categories := value |}.

Definition setSelectedCategory (categoryId : string) (c : state) : state :=
  {| page := {| pp_products := pp_products (page c);
                pp_selectedCategory := categoryId;
                pp_loading := pp_loading (page c) |};
     categories := categories c |}.

Definition setLoading (b : bool) (c : state) : state :=
  {| page := {| pp_products := pp_products (page c);
                pp_selectedCategory := pp_selectedCategory (page c);
                pp_loading := b |};
     categories := categories c |}.

Section WithBackend.

Variable BACKEND_URL : string.

(** [categoryId ? { category_id: categoryId } : {}] *)
Definition params (categoryId : string) : list (string * string) :=
  if truthy (Some categoryId) then [("category_id", categoryId)] else [].

(** [fetchProducts] up to its [await]: the request leaves. *)
Definition fetchProducts_request (categoryId : string) (win : Window)
    : Window :=
  call Get (API BACKEND_URL ++ "/products") (params categoryId) None win.

(** [fetchProducts] from its [await] on, once the reply is there. *)
Definition fetchProducts_reply (reply : Reply (list Product))
    (c : state) (win : Window) : state * Window :=
  match reply with
  | Fulfilled value => (setProducts value c, win)
  | Rejected _ =>
      (c, in_browser (console_log "Error fetching products:") win)
  end.

Definition fetchProducts (categoryId : string) (reply : Reply (list Product))
    (c : state) (win : Window) : state * Window :=
  fetchProducts_reply reply c (fetchProducts_request categoryId win).

Definition fetchCategories_request (win : Window) : Window :=
  call Get (API BACKEND_URL ++ "/categories") [] None win.

Definition fetchCategories_reply (reply : Reply (list Category))
    (c : state) (win : Window) : state * Window :=
  match reply with
  | Fulfilled value => (setCategories value c, win)
  | Rejected _ =>
      (c, in_browser (console_log "Error fetching categories:") win)
  end.

Definition fetchCategories (reply : Reply (list Category))
    (c : state) (win : Window) : state * Window :=
  fetchCategories_reply reply c (fetchCategories_request win).

(** The reply to the request of the second effect is handled when it
    arrives: at [now] if that is the moment [arrival] names. *)
Definition arrive (now arrival : Arrival) (first : Reply (list Product))
    (r : state * Window) : state * Window :=
  if decide (now = arrival) then fetchProducts_reply first r.1 r.2 else r.

(** The two effects of the first render (App.js 498-517), on the initial
    state.  The first calls [initData], which runs up to its first
    [await], so the seed request leaves; the second then calls
    [fetchProducts(selectedCategory)] with the initial selection, so a
    products request leaves as well.  [initData] goes on as its replies
    come: [seeded], [cats] and [prods] answer its three requests, each of
    the last two sent once the reply before it is handled.  [first]
    answers the request of the second effect, and [arrival] says between
    which of these steps. *)
Definition mount (seeded : Reply unit) (cats : Reply (list Category))
    (prods first : Reply (list Product)) (arrival : Arrival) (win : Window)
    : state * Window :=
  let win1 := call Post (API BACKEND_URL ++ "/init-data") [] None win in
  let win2 := fetchProducts_request (pp_selectedCategory (page init)) win1 in
  let '(c1, win3) := arrive BeforeSeed arrival first (init, win2) in
  let win4 :=
    match seeded with
    | Fulfilled _ => win3
    | Rejected _ =>
        in_browser (console_log "Data might already be initialized") win3
    end in
  let '(c2, win5) := arrive BeforeCategories arrival first
                       (c1, fetchCategories_request win4) in
  let '(c3, win6) := fetchCategories_reply cats c2 win5 in
  let '(c4, win7) := arrive BeforeProducts arrival first
                       (c3, fetchProducts_request "" win6) in
  let '(c5, win8) := fetchProducts_reply prods c4 win7 in
  arrive AfterProducts arrival first (setLoading false c5, win8).

(** Clicking a category button, and the effect on [selectedCategory]
    that follows; the effect runs only when the selection changes. *)
Definition selectCategory (categoryId : string) (reply : Reply (list Product))
    (c : state) (win : Window) : state * Window :=
  if String.eqb categoryId (pp_selectedCategory (page c)) then (c, win)
  else fetchProducts categoryId reply (setSelectedCategory categoryId c) win.

End WithBackend.

End Catalogue.

(** ** Orders (the records the backend returns) *)

Record OrderItem := {
  product_name : string;
  line_price : number;
  line_quantity : number
}.

Record Order := {
  order_id : string;
  order_user_id : string;
  order_items : list OrderItem;
  total_amount : number;
  delivery_address : string;
  payment_method : string;
  order_status : string;
  order_created_at : string
}.

(** ** OrdersPage (App.js 771-860) *)

Module OrdersPage.

Record state := {
  orders : list Order;
  loading : bool
}.

(** [useState([])], [useState(true)] *)
Definition init : state := {| orders := []; loading := true |}.

Section WithBackend.

Variable BACKEND_URL : string.

Definition fetchOrders (reply : Reply (list Order)) (p : state) (win : Window)
    : state * Window :=
  let win1 := call Get (API BACKEND_URL ++ "/orders") [] None win in
  match reply with
  | Fulfilled value => ({| orders := value; loading := false |}, win1)
  | Rejected _ =>
      ({| orders := orders p; loading := false |},
       in_browser (console_log "Error fetching orders:") win1)
  end.

End WithBackend.

(** Which of the three views the page renders. *)
Inductive View :=
  | Spinner
  | NoOrders
  | OrdersList (shown : list Order).

Definition view (p : state) : View :=
  if loading p then Spinner
  else match orders p with
       | [] => NoOrders
       | _ :: _ => OrdersList (orders p)
       end.

End OrdersPage.

(** ** AdminPanel (App.js 863-1035) *)

Module AdminPanel.

Record state := {
  activeTab : string;
  orders : list Order;
  users : list User;
  products : list Product
}.

(** [useState('orders')] and three empty lists. *)
Definition init : state :=
  {| activeTab := "orders"; orders := []; users := []; products := [] |}.

Definition setActiveTab (tab : string) (p : state) : state :=
  {| activeTab := tab; orders := orders p; users := users p;
     products := products p |}.

Section WithBackend.

Variable BACKEND_URL : string.

Definition fetchOrders (reply : Reply (list Order)) (p : state) (win : Window)
    : state * Window :=
  let win1 := call Get (API BACKEND_URL ++ "/admin/orders") [] None win in
  match reply with
  | Fulfilled value =>
      ({| activeTab := activeTab p; orders := value; users := users p;
          products := products p |}, win1)
  | Rejected _ => (p, in_browser (console_log "Error fetching orders:") win1)
  end.

Definition fetchUsers (reply : Reply (list User)) (p : state) (win : Window)
    : state * Window :=
  let win1 := call Get (API BACKEND_URL ++ "/admin/users") [] None win in
  match reply with
  | Fulfilled value =>
      ({| activeTab := activeTab p; orders := orders p; users := value;
          products := products p |}, win1)
  | Rejected _ => (p, in_browser (console_log "Error fetching users:") win1)
  end.

Definition fetchProducts (reply : Reply (list Product)) (p : state)
    (win : Window) : state * Window :=
  let win1 := call Get (API BACKEND_URL ++ "/products") [] None win in
  match reply with
  | Fulfilled value =>
      ({| activeTab := activeTab p; orders := orders p; users := users p;
          products := value |}, win1)
  | Rejected _ => (p, in_browser (console_log "Error fetching products:") win1)
  end.

(** The effect on [activeTab]; only the reply of the request that is
    sent is looked at. *)
Definition tab_effect (ordersReply : Reply (list Order))
    (usersReply : Reply (list User)) (productsReply : Reply (list Product))
    (p : state) (win : Window) : state * Window :=
  if String.eqb (activeTab p) "orders" then fetchOrders ordersReply p win
  else if String.eqb (activeTab p) "users" then fetchUsers usersReply p win
  else if String.eqb (activeTab p) "products"
       then fetchProducts productsReply p win
  else (p, win).

Definition updateOrderStatus (orderId status : string) (updated : Reply unit)
    (ordersReply : Reply (list Order)) (p : state) (win : Window)
    : state * Window :=
  let win1 := call Put (API BACKEND_URL ++ "/admin/orders/" ++ orderId ++ "/status")
                [("status", status)] None win in
  match updated with
  | Fulfilled _ =>
      let r := fetchOrders ordersReply p win1 in
      (r.1, in_browser (alert "Order status updated successfully") r.2)
  | Rejected error =>
      (p, in_browser (alert ("Error updating order status: " ++
                             or_else (error_detail error) "Unknown error"))
                     win1)
  end.

End WithBackend.

End AdminPanel.

(** ** Notions used to state the properties of the pages *)

(** The token in React state is the stored one, and a credential header,
    when installed, carries the stored token. *)
Definition session_coherent (sw : AuthState * Browser) : Prop :=
  token sw.1 = localStorage sw.2 !! "token" /\
  (axios_headers sw.2 !! "Authorization" = None \/
   exists t, localStorage sw.2 !! "token" = Some t /\
             axios_headers sw.2 !! "Authorization" = Some ("Bearer " ++ t)).

(** The field of the form that belongs to an input. *)
Definition form_field (n : RegisterPage.InputName) (f : FormData) : string :=
  match n with
  | RegisterPage.Name => form_name f
  | RegisterPage.Email => form_email f
  | RegisterPage.Password => form_password f
  | RegisterPage.Phone => form_phone f
  | RegisterPage.Address => form_address f
  end.

Definition same_input (n m : RegisterPage.InputName) : bool :=
  match n, m with
  | RegisterPage.Name, RegisterPage.Name
  | RegisterPage.Email, RegisterPage.Email
  | RegisterPage.Password, RegisterPage.Password
  | RegisterPage.Phone, RegisterPage.Phone
  | RegisterPage.Address, RegisterPage.Address => true
  | _, _ => false
  end.

(** The values typed into one input, oldest first. *)
Definition typed_into (n : RegisterPage.InputName)
    (edits : list (RegisterPage.InputName * string)) : list string :=
  omap (fun e => if same_input e.1 n then Some e.2 else None) edits.

Definition type_all (edits : list (RegisterPage.InputName * string))
    (p : RegisterPage.state) : RegisterPage.state :=
  fold_left (fun p e => RegisterPage.handleChange e.1 e.2 p) edits p.

(** A window with its console emptied: what is left of it for the user
    and for the backend. *)
Definition silenced (win : Window) : Window :=
  in_browser (fun b => {| localStorage := localStorage b;
                          axios_headers := axios_headers b;
                          alerts := alerts b; console := [];
                          sent := sent b |}) win.

(** The number of units in a cart as an integer, when every quantity is
    a non-negative integer. *)
Definition exact_count (items : list CartItem) : option Z :=
  exact_sum (map (fun item => nat_value (quantity item)) items).

(** ** Sample data for the examples *)

Definition blank : Browser :=
  {| localStorage := ∅; axios_headers := ∅;
     alerts := []; console := []; sent := [] |}.

Definition stored_session : Browser :=
  {| localStorage := {[ "token" := "expired.jwt" ]};
     axios_headers := ∅; alerts := []; console := []; sent := [] |}.

Definition shopper : AuthState :=
  {| user := Some {| user_id := "u1"; user_name := "Asha";
                     user_email := "asha@example.com";
                     user_role := "customer" |};
     token := Some "jwt" |}.

Definition apples : Product :=
  {| id := "p-apple"; name := "Apples"; description := "Organic apples";
     price := 120%float; stock_quantity := 50%float;
     image_url := ""; organic_certification := true; farm_origin := "" |}.

Definition oversold : Product :=
  {| id := "p-apple"; name := "Apples"; description := "Organic apples";
     price := 120%float; stock_quantity := (-1)%float;
     image_url := ""; organic_certification := true; farm_origin := "" |}.

Definition one_line_cart : CartState :=
  {| cartItems := [ {| item_id := "c1"; product_id := "p-apple";
                       quantity := 2%float |} ];
     products := {[ "p-apple" := apples ]};
     loading := false |}.

Definition not_found : AxiosError :=
  {| response := Some {| data := Some {| detail := Some "Cart item not found" |} |} |}.

Definition row (i p : string) (q : number) : CartItem :=
  {| item_id := i; product_id := p; quantity := q |}.

Definition cart_of (m : gmap string Product) (rows : list CartItem)
    : CartState :=
  {| cartItems := rows; products := m; loading := false |}.

Definition catalogue (a b c : number) : gmap string Product :=
  {[ "p-apple" := {| id := "p-apple"; name := "Apples"; description := "";
                     price := a; stock_quantity := 50%float; image_url := "";
                     organic_certification := true; farm_origin := "" |};
     "p-kale" := {| id := "p-kale"; name := "Kale"; description := "";
                    price := b; stock_quantity := 20%float; image_url := "";
                    organic_certification := true; farm_origin := "" |};
     "p-honey" := {| id := "p-honey"; name := "Honey"; description := "";
                     price := c; stock_quantity := 10%float; image_url := "";
                     organic_certification := true; farm_origin := "" |} ]}.

(** Prices 49.99, 19.99 and 45.75, as the nearest binary64 numbers. *)
Definition fractional_prices : gmap string Product :=
  catalogue 0x1.8feb851eb851fp+5%float 0x1.3fd70a3d70a3dp+4%float
            0x1.6ep+5%float.

Definition rows_forward : list CartItem :=
  [ row "c1" "p-apple" 1%float; row "c2" "p-kale" 1%float;
    row "c3" "p-honey" 1%float ].

Definition rows_backward : list CartItem :=
  [ row "c3" "p-honey" 1%float; row "c2" "p-kale" 1%float;
    row "c1" "p-apple" 1%float ].

Definition whole_prices : gmap string Product :=
  catalogue 120%float 45%float 350%float.

Definition rows_whole : list CartItem :=
  [ row "c1" "p-apple" 2%float; row "c2" "p-kale" 1%float;
    row "c3" "p-honey" 3%float ].

Definition rows_whole_backward : list CartItem :=
  [ row "c3" "p-honey" 3%float; row "c2" "p-kale" 1%float;
    row "c1" "p-apple" 2%float ].

Definition asha : User :=
  {| user_id := "u1"; user_name := "Asha";
     user_email := "asha@example.com"; user_role := "customer" |}.

Definition asha_renamed : User :=
  {| user_id := "u1"; user_name := "Asha K";
     user_email := "asha@example.com"; user_role := "customer" |}.

Definition new_window : Window :=
  {| browser := blank; wire := []; pathname := "/" |}.

(** A backend that answers the product requests for [rows] from the
    catalogue [m]. *)
Definition catalogue_reply (m : gmap string Product) (rows : list CartItem)
    (i : nat) : Reply Product :=
  match rows !! i ≫= (fun r => m !! product_id r) with
  | Some p => Fulfilled p
  | None => Rejected not_found
  end.


(** * Properties *)

(** ** Session store *)

(** C2: when the identity lookup started for a stored (truthy) token is
    rejected, whatever the error, the store logs out: user and token state
    are cleared, the [token] key leaves local storage and the default
    [Authorization] header is deleted; exactly the one lookup was sent,
    with the stored token as credential, and no dialog is shown. *)
Theorem revalidation_rejected_logs_out
    (BACKEND_URL : string) (s : AuthState) (w : Browser) (error : AxiosError)
    (t : string) :
  token s = Some t -> t <> "" ->
  let r := revalidation BACKEND_URL (Rejected error) s w in
  user r.1 = None /\ token r.1 = None /\
  localStorage r.2 !! "token" = None /\
  axios_headers r.2 !! "Authorization" = None /\
  alerts r.2 = alerts w /\
  sent r.2 = (sent w ++ [ {| method := GET;
                             url := (API BACKEND_URL ++ "/auth/me")%string;
                             authorization := Some ("Bearer " ++ t)%string;
                             body := None |} ])%list.
Proof.
  intros Ht Hne.
  assert (Htr : truthy (token s) = true).
  { rewrite Ht. simpl. destruct (String.eqb_spec t ""); [contradiction|reflexivity]. }
  unfold revalidation, revalidation_start. rewrite Htr, Ht. simpl.
  repeat split.
  - apply lookup_delete_eq.
  - apply lookup_delete_eq.
  - now rewrite lookup_insert_eq.
Qed.

Lemma revalidation_rejected_logs_out_witness :
  let r := revalidation "http://localhost:8001"
             (Rejected {| response := None |})
             (auth_init stored_session) stored_session in
  user r.1 = None /\ token r.1 = None /\
  localStorage r.2 !! "token" = None /\
  axios_headers r.2 !! "Authorization" = None /\
  alerts r.2 = alerts stored_session /\
  sent r.2 = (sent stored_session ++
              [ {| method := GET;
                   url := (API "http://localhost:8001" ++ "/auth/me")%string;
                   authorization := Some ("Bearer " ++ "expired.jwt")%string;
                   body := None |} ])%list.
Proof.
  apply (revalidation_rejected_logs_out "http://localhost:8001"
           (auth_init stored_session) stored_session
           {| response := None |} "expired.jwt").
  - reflexivity.
  - discriminate.
Defined.

(** ** Authorization gate *)

(** C3: without a user every wrapped route (authenticated or admin)
    redirects to [/login]; with a user whose role is not ['admin'] an
    admin route redirects to [/products]; with a user whose role is
    ['admin'] an admin route renders.  In the routing table [/products],
    [/cart] and [/orders] ask for an authenticated user and [/admin] for
    an admin. *)
Theorem gate_rules (s : AuthState) :
  (forall path, path ∈ ["/products"; "/cart"; "/orders"] ->
     route path s = Some (gate Authenticated s)) /\
  route "/admin" s = Some (gate Admin s) /\
  (isAuthenticated s = false ->
     gate Authenticated s = Navigate "/login" /\
     gate Admin s = Navigate "/login") /\
  (forall u, user s = Some u -> user_role u <> "admin" ->
     isAuthenticated s = true /\ gate Admin s = Navigate "/products") /\
  (forall u, user s = Some u -> user_role u = "admin" ->
     isAuthenticated s = true /\ gate Admin s = Render).
Proof.
  split; [|split; [reflexivity|]].
  { intros path Hpath. repeat (apply elem_of_cons in Hpath as [->|Hpath];
      [reflexivity|]). now apply elem_of_nil in Hpath. }
  unfold gate, ProtectedRoute, isAuthenticated.
  split; [|split].
  - intros H. rewrite H. simpl. auto.
  - intros u Hu Hrole. rewrite Hu. simpl.
    destruct (String.eqb_spec (user_role u) "admin"); [contradiction|auto].
  - intros u Hu Hrole. rewrite Hu, Hrole. simpl. auto.
Qed.

(** C9: [isAuthenticated] is exactly the presence of a user; a token, in
    state or in storage, does not count.  Right after a (re)load the user
    is absent whatever the stored token, so every wrapped route redirects
    to [/login]; the user, and with it [isAuthenticated], appears only
    when the lookup for a truthy token is fulfilled. *)
Theorem authenticated_iff_user (BACKEND_URL : string) :
  (forall s, isAuthenticated s = true <-> is_Some (user s)) /\
  (forall t, isAuthenticated {| user := None; token := t |} = false) /\
  (forall w c, c <> Public ->
     isAuthenticated (auth_init w) = false /\
     gate c (auth_init w) = Navigate "/login") /\
  (forall w u, isAuthenticated
     (revalidation BACKEND_URL (Fulfilled u) (auth_init w) w).1
     = truthy (localStorage w !! "token")).
Proof.
  repeat split.
  - unfold isAuthenticated. destruct (user s); [eauto|discriminate].
  - unfold isAuthenticated. intros [u ->]. reflexivity.
  - destruct c; [contradiction|reflexivity|reflexivity].
  - intros w u. unfold revalidation, auth_init. simpl.
    destruct (truthy (localStorage w !! "token")); reflexivity.
Qed.

(** ** Adding to the cart *)

Lemma or_else_spec (v : option string) (fallback : string) :
  (forall d, v = Some d -> d <> "" -> or_else v fallback = d) /\
  (v = None \/ v = Some "" -> or_else v fallback = fallback).
Proof.
  split.
  - intros d -> Hd. simpl.
    destruct (String.eqb_spec d ""); [contradiction|reflexivity].
  - intros [-> | ->]; reflexivity.
Qed.

(** C5: [addToCart] sends exactly one request, the create with the given
    product and quantity 1, whatever the reply, and shows exactly one
    dialog: ['Product added to cart!'] when the create is fulfilled; when
    it is rejected, ['Error adding to cart: '] followed by the detail text
    of the error when the error has a response with data whose detail is a
    non-empty text, and followed by ['Unknown error'] for every other
    error (no response, no data, no detail, or the empty detail).  The
    page state and local storage are as before. *)
Theorem addToCart_once_quantity_one
    (BACKEND_URL productId : string) (created : Reply unit)
    (s : ProductsState) (w : Browser) :
  let r := addToCart BACKEND_URL productId created s w in
  r.1 = s /\
  localStorage r.2 = localStorage w /\
  sent r.2 = (sent w ++
              [ {| method := POST;
                   url := (API BACKEND_URL ++ "/cart")%string;
                   authorization := axios_headers w !! "Authorization";
                   body := Some {| body_product_id := productId;
                                   body_quantity := 1%float |} |} ])%list /\
  (forall v, created = Fulfilled v ->
     alerts r.2 = (alerts w ++ ["Product added to cart!"])%list) /\
  (forall d,
     created =
     Rejected {| response := Some {| data := Some {| detail := Some d |} |} |} ->
     alerts r.2 =
     (alerts w ++
      [ if String.eqb d "" then "Error adding to cart: Unknown error"
        else ("Error adding to cart: " ++ d)%string ])%list) /\
  (created = Rejected {| response := None |} \/
   created = Rejected {| response := Some {| data := None |} |} \/
   created =
   Rejected {| response := Some {| data := Some {| detail := None |} |} |} ->
   alerts r.2 = (alerts w ++ ["Error adding to cart: Unknown error"])%list).
Proof.
  unfold addToCart.
  split; [destruct created; reflexivity|].
  split; [destruct created; reflexivity|].
  split; [destruct created; reflexivity|].
  split; [|split].
  - intros v ->. reflexivity.
  - intros d ->. simpl. destruct d as [|c d]; reflexivity.
  - intros [-> | [-> | ->]]; reflexivity.
Qed.

(** ** The add-to-cart control *)

Lemma eqb_zero (x : float) :
  PrimFloat.eqb x 0%float = true <-> exists sign, Prim2SF x = S754_zero sign.
Proof.
  rewrite FloatAxioms.eqb_spec. change (Prim2SF 0%float) with (S754_zero false).
  destruct (Prim2SF x) as [sx|sx| |sx m e]; unfold SFeqb; simpl; split;
    try (intros [sign H]); try discriminate; eauto;
    destruct sx; discriminate.
Qed.

(** C8 (as the code has it): the control is disabled exactly when
    [stock_quantity] is the number zero, and is enabled for every
    positive and for every negative [stock_quantity]; the caption follows
    the same test.  The test is only in the control: [addToCart] sends
    the create whatever the stock. *)
Theorem add_to_cart_disabled_iff_zero (p : Product) :
  (add_to_cart_disabled p = true <->
     exists sign, Prim2SF (stock_quantity p) = S754_zero sign) /\
  (PrimFloat.ltb 0%float (stock_quantity p) = true ->
     add_to_cart_disabled p = false) /\
  (PrimFloat.ltb (stock_quantity p) 0%float = true ->
     add_to_cart_disabled p = false) /\
  (add_to_cart_label p =
     if add_to_cart_disabled p then "Out of Stock" else "Add to Cart") /\
  (forall url created s w,
     length (sent (addToCart url (id p) created s w).2) = S (length (sent w))).
Proof.
  unfold add_to_cart_disabled, add_to_cart_label.
  split; [apply eqb_zero|]. split; [|split; [|split]].
  - rewrite FloatAxioms.ltb_spec, FloatAxioms.eqb_spec.
    change (Prim2SF 0%float) with (S754_zero false).
    destruct (Prim2SF (stock_quantity p)) as [sx|sx| |sx m e];
      unfold SFltb, SFeqb; simpl; try discriminate; try reflexivity;
      destruct sx; try discriminate; reflexivity.
  - rewrite FloatAxioms.ltb_spec, FloatAxioms.eqb_spec.
    change (Prim2SF 0%float) with (S754_zero false).
    destruct (Prim2SF (stock_quantity p)) as [sx|sx| |sx m e];
      unfold SFltb, SFeqb; simpl; try discriminate; try reflexivity;
      destruct sx; try discriminate; reflexivity.
  - reflexivity.
  - intros url created s w. unfold addToCart.
    destruct created; simpl; rewrite length_app; simpl; lia.
Qed.

(** C8 as claimed fails: a stock of -1 is at most 0, yet the control is
    enabled. *)
Lemma negative_stock_enabled :
  PrimFloat.leb (stock_quantity oversold) 0%float = true /\
  add_to_cart_disabled oversold = false.
Proof. split; reflexivity. Qed.

(** ** The navigation badge *)

Lemma reduce_sum_from {A : Type} (f : A -> number) (xs : list A) (acc : number) :
  reduce (fun sum x => (sum + f x)%float) acc xs = sum_from acc (map f xs).
Proof.
  unfold reduce. revert acc.
  induction xs as [|x xs IH]; intros acc; simpl; [reflexivity|apply IH].
Qed.

(** C10: for a signed-in user the count after a fulfilled cart fetch is
    the sum of the [quantity] fields of the rows returned (for one row of
    quantity 3 it is 3, not 1), which the badge shows when it is
    positive; after a rejected fetch the count is the one shown before. *)
Theorem cart_count_sums_quantities
    (BACKEND_URL : string) (s : AuthState) (u : User)
    (cartCount : number) (w : Browser) :
  user s = Some u ->
  (forall items,
     let count := (fetchCartCount BACKEND_URL (Fulfilled items) s cartCount w).1 in
     count = js_sum (map quantity items) /\
     cart_badge count =
       if PrimFloat.ltb 0%float (js_sum (map quantity items))
       then Some (js_sum (map quantity items)) else None) /\
  (forall error,
     (fetchCartCount BACKEND_URL (Rejected error) s cartCount w).1
     = cartCount).
Proof.
  intros Hu. unfold fetchCartCount. rewrite Hu. split.
  - intros items. simpl. rewrite reduce_sum_from. split; reflexivity.
  - reflexivity.
Qed.

Lemma cart_count_sums_quantities_witness :
  (fetchCartCount "http://localhost:8001"
     (Fulfilled [ {| item_id := "c1"; product_id := "p-apple";
                     quantity := 3%float |} ]) shopper 0%float blank).1
  = 3%float /\
  (fetchCartCount "http://localhost:8001"
     (Rejected {| response := None |}) shopper 7%float blank).1 = 7%float.
Proof.
  destruct (cart_count_sums_quantities "http://localhost:8001" shopper
              {| user_id := "u1"; user_name := "Asha";
                 user_email := "asha@example.com";
                 user_role := "customer" |} 7%float blank eq_refl)
    as [_ Hrej].
  destruct (cart_count_sums_quantities "http://localhost:8001" shopper
              {| user_id := "u1"; user_name := "Asha";
                 user_email := "asha@example.com";
                 user_role := "customer" |} 0%float blank eq_refl)
    as [Hok _].
  split.
  - destruct (Hok [ {| item_id := "c1"; product_id := "p-apple";
                       quantity := 3%float |} ]) as [Hcount _].
    rewrite Hcount. reflexivity.
  - apply Hrej.
Defined.

(** ** What the cart page sends *)

Lemma axios_many_spec (m : Method) (us : list string) (w : Browser) :
  axios_many m us w =
  {| localStorage := localStorage w; axios_headers := axios_headers w;
     alerts := alerts w; console := console w;
     sent := sent w ++
             map (plain_request m (axios_headers w !! "Authorization")) us |}.
Proof.
  unfold axios_many. revert w.
  induction us as [|u us IH]; intros w; simpl.
  - rewrite app_nil_r. now destruct w.
  - rewrite IH. unfold axios. simpl. now rewrite <- app_assoc.
Qed.

Lemma fetchCart_browser (BACKEND_URL : string) (cart : Reply (list CartItem))
    (product : nat -> Reply Product) (s : CartState) (w : Browser) :
  let r := fetchCart BACKEND_URL cart product s w in
  localStorage r.2 = localStorage w /\
  axios_headers r.2 = axios_headers w /\
  alerts r.2 = alerts w /\
  sent r.2 = (sent w ++ fetch_requests (API BACKEND_URL)
                          (axios_headers w !! "Authorization") cart)%list.
Proof.
  unfold fetchCart, fetch_requests.
  destruct cart as [value|e]; simpl; [|auto].
  rewrite axios_many_spec.
  destruct (promise_all _); simpl; rewrite <- app_assoc, !map_map; simpl; auto.
Qed.

(** ** The total as a fold *)

Lemma getTotalPrice_sum (s : CartState) :
  getTotalPrice s = js_sum (map (line_amount (products s)) (cartItems s)).
Proof.
  unfold getTotalPrice, js_sum.
  exact (reduce_sum_from (line_amount (products s)) (cartItems s) 0%float).
Qed.

Lemma js_get_entry (m : gmap string Product) (k : string) (p : Product) :
  m !! k = Some p -> js_get m k = AProduct p.
Proof. unfold js_get. now intros ->. Qed.

Lemma line_amount_ext (m1 m2 : gmap string Product) (items : list CartItem) :
  (forall item, item ∈ items ->
     js_get m1 (product_id item) = js_get m2 (product_id item)) ->
  map (line_amount m1) items = map (line_amount m2) items.
Proof.
  induction items as [|item items IH]; intros H; simpl; [reflexivity|].
  f_equal.
  - unfold line_amount. rewrite (H item); [reflexivity|left].
  - apply IH. intros i Hi. apply H. now right.
Qed.

(** ** The product map rebuilt by a refetch *)

Lemma product_map_lookup (old : gmap string Product) (ps : list Product) :
  (forall p, p ∈ ps -> old !! id p = Some p) ->
  forall (m0 : gmap string Product) (k : string),
    fold_left (fun m p => <[id p := p]> m) ps m0 !! k =
    if decide (k ∈ map id ps) then old !! k else m0 !! k.
Proof.
  induction ps as [|p ps IH]; intros Hold m0 k.
  - cbn [fold_left map]. destruct (decide (k ∈ [])) as [Hin|_]; [|reflexivity].
    now apply elem_of_nil in Hin.
  - cbn [fold_left map].
    rewrite IH by (intros q Hq; apply Hold; now right).
    destruct (decide (k ∈ map id ps)) as [Hin|Hnin];
      destruct (decide (k ∈ id p :: map id ps)) as [Hin'|Hnin'].
    + reflexivity.
    + exfalso. apply Hnin'. now right.
    + destruct (decide (k = id p)) as [->|Hne].
      * rewrite lookup_insert_eq. symmetry. apply Hold. left.
      * apply elem_of_cons in Hin' as [?|?]; contradiction.
    + apply lookup_insert_ne. intros <-. apply Hnin'. left.
Qed.

Lemma promise_all_fulfilled {A : Type} (reply : nat -> Reply A)
    (P : nat -> A -> Prop) (n : nat) :
  forall start,
    (forall i, i < n -> exists v, reply (start + i) = Fulfilled v /\ P (start + i) v) ->
    exists vs,
      promise_all (map reply (seq start n)) = Fulfilled vs /\
      length vs = n /\
      (forall i v, vs !! i = Some v -> P (start + i) v).
Proof.
  induction n as [|n IH]; intros start H; simpl.
  - exists []. repeat split. intros i v Hl. discriminate.
  - destruct (H 0) as [v [Hv HP]]; [lia|].
    rewrite Nat.add_0_r in Hv, HP.
    destruct (IH (S start)) as [vs [Hvs [Hlen Hall]]].
    { intros i Hi. destruct (H (S i)) as [x [Hx HPx]]; [lia|].
      exists x. now rewrite Nat.add_succ_comm. }
    exists (v :: vs). rewrite Hv, Hvs. repeat split; [simpl; lia|].
    intros [|i] x Hx; simpl in Hx.
    + injection Hx as <-. now rewrite Nat.add_0_r.
    + rewrite <- Nat.add_succ_comm. now apply Hall.
Qed.

Lemma filter_absent (itemId : string) (items : list CartItem) :
  itemId ∉ map item_id items ->
  filter (fun i => item_id i <> itemId) items = items.
Proof.
  induction items as [|i items IH]; intros H; [reflexivity|].
  rewrite filter_cons_True.
  - f_equal. apply IH. intros Hin. apply H. now right.
  - intros Heq. apply H. rewrite <- Heq. left.
Qed.

(** A refetch that is answered with the rows [items] and, for each row,
    with the product the page already holds under that row's
    [product_id], leaves the total of those rows as it was. *)
Lemma refetch_same_total (BACKEND_URL : string) (items : list CartItem)
    (product : nat -> Reply Product) (s : CartState) (w : Browser) :
  (forall i item, items !! i = Some item ->
     exists p, product i = Fulfilled p /\ id p = product_id item /\
               products s !! product_id item = Some p) ->
  let s' := (fetchCart BACKEND_URL (Fulfilled items) product s w).1 in
  cartItems s' = items /\
  js_sum (map (line_amount (products s')) items) =
  js_sum (map (line_amount (products s)) items).
Proof.
  intros H.
  destruct (promise_all_fulfilled product
              (fun i p => exists item, items !! i = Some item /\
                 id p = product_id item /\
                 products s !! product_id item = Some p)
              (length items) 0) as [ps [Hps [Hlen Hall]]].
  { intros i Hi. destruct (lookup_lt_is_Some_2 items i Hi) as [item Hitem].
    destruct (H i item Hitem) as [p [Hp [Hid Hold]]].
    exists p. simpl. eauto. }
  unfold fetchCart. simpl. rewrite length_map, Hps. simpl.
  split; [reflexivity|]. f_equal. apply line_amount_ext.
  intros item [i Hi]%list_elem_of_lookup_1.
  destruct (H i item Hi) as [p0 [_ [_ Hold0]]].
  rewrite (js_get_entry (products s) _ p0 Hold0).
  apply js_get_entry. rewrite <- Hold0.
  unfold product_map. rewrite (product_map_lookup (products s)).
  - destruct (decide _) as [_|Hnin]; [reflexivity|].
    exfalso. apply Hnin.
    destruct (lookup_lt_is_Some_2 ps i) as [p Hp].
    { rewrite Hlen. eapply lookup_lt_Some, Hi. }
    destruct (Hall i p Hp) as [item' [Hi' [Hid _]]]. simpl in Hi'.
    rewrite Hi in Hi'. injection Hi' as <-.
    rewrite <- Hid. apply (list_elem_of_fmap_2 id).
    eapply list_elem_of_lookup_2, Hp.
  - intros p [j Hj]%list_elem_of_lookup_1.
    destruct (Hall j p Hj) as [item' [_ [Hid Hold]]].
    now rewrite Hid.
Qed.

(** ** Removing from the cart *)

(** C4 (as the code has it): for every [itemId], in the cart or not,
    [removeFromCart] first sends the delete.  When the delete is fulfilled
    it then refetches: the cart request follows, and the product requests
    after it.  When the delete is rejected nothing else is sent, one
    dialog reports the error, and the page state, hence the total, is
    untouched.  For an [itemId] that is not in the cart, a fulfilled
    delete followed by a refetch that returns the cart without that id,
    each row with the product already on the page, leaves rows and total
    as they were. *)
Theorem removeFromCart_refetches_when_deleted
    (BACKEND_URL itemId : string) (deleted : Reply unit)
    (cart : Reply (list CartItem)) (product : nat -> Reply Product)
    (s : CartState) (w : Browser) :
  let auth := axios_headers w !! "Authorization" in
  let delete_request :=
    plain_request DELETE auth (API BACKEND_URL ++ "/cart/" ++ itemId) in
  let r := removeFromCart BACKEND_URL itemId deleted cart product s w in
  (forall v, deleted = Fulfilled v ->
     sent r.2 = (sent w ++ delete_request ::
                 fetch_requests (API BACKEND_URL) auth cart)%list /\
     alerts r.2 = alerts w) /\
  (forall error, deleted = Rejected error ->
     sent r.2 = (sent w ++ [delete_request])%list /\
     alerts r.2 = (alerts w ++
                   [("Error removing item: " ++
                     or_else (error_detail error) "Unknown error")%string])%list /\
     r.1 = s /\ getTotalPrice r.1 = getTotalPrice s) /\
  (itemId ∉ map item_id (cartItems s) ->
   forall v, deleted = Fulfilled v ->
   cart = Fulfilled (filter (fun i => item_id i <> itemId) (cartItems s)) ->
   (forall i item, cartItems s !! i = Some item ->
      exists p, product i = Fulfilled p /\ id p = product_id item /\
                products s !! product_id item = Some p) ->
   cartItems r.1 = cartItems s /\ getTotalPrice r.1 = getTotalPrice s).
Proof.
  intros auth delete_request r. subst r. unfold removeFromCart.
  split; [|split].
  - intros v ->.
    destruct (fetchCart_browser BACKEND_URL cart product s
                (axios DELETE (API BACKEND_URL ++ "/cart/" ++ itemId) None w))
      as [_ [_ [Ha Hs]]].
    cbv zeta in Ha, Hs. rewrite Ha, Hs. simpl.
    split; [|reflexivity]. now rewrite <- app_assoc.
  - intros error ->. simpl. auto.
  - intros Habsent v -> -> Hsync.
    rewrite filter_absent by assumption.
    destruct (refetch_same_total BACKEND_URL (cartItems s) product s
                (axios DELETE (API BACKEND_URL ++ "/cart/" ++ itemId) None w)
                Hsync) as [Hitems Hsum].
    split; [exact Hitems|].
    rewrite !getTotalPrice_sum, Hitems. exact Hsum.
Qed.

(** C4 as claimed fails: the delete of an id that is not in the cart is
    rejected by the backend; the delete is the only request sent, no cart
    request follows, and a dialog is shown instead. *)
Lemma rejected_delete_no_refetch :
  let r := removeFromCart "http://localhost:8001" "c9" (Rejected not_found)
             (Fulfilled (cartItems one_line_cart)) (fun _ => Fulfilled apples)
             one_line_cart blank in
  ("c9" ∉ map item_id (cartItems one_line_cart)) /\
  sent r.2 = [ plain_request DELETE None "http://localhost:8001/api/cart/c9" ] /\
  alerts r.2 = [ "Error removing item: Cart item not found" ].
Proof.
  split; [|split; reflexivity].
  intros H. apply elem_of_cons in H as [H|H]; [discriminate H|].
  now apply elem_of_nil in H.
Qed.

Lemma removeFromCart_refetches_when_deleted_witness :
  let r := removeFromCart "http://localhost:8001" "c9" (Fulfilled tt)
             (Fulfilled (cartItems one_line_cart)) (fun _ => Fulfilled apples)
             one_line_cart blank in
  cartItems r.1 = cartItems one_line_cart /\
  getTotalPrice r.1 = getTotalPrice one_line_cart.
Proof.
  destruct (removeFromCart_refetches_when_deleted "http://localhost:8001" "c9"
              (Fulfilled tt) (Fulfilled (cartItems one_line_cart))
              (fun _ => Fulfilled apples) one_line_cart blank)
    as [_ [_ Habsent]].
  apply (Habsent ltac:(vm_compute; intros H; inversion H as [|? ? ? H']; inversion H')
           tt eq_refl eq_refl).
  intros [|i] item H; [|discriminate H].
  injection H as <-. exists apples. repeat split.
Defined.

(** ** The delivery charge *)

(** C7: the order summary is rendered exactly when the page is not
    loading and the cart has a row, and then it shows the subtotal
    [getTotalPrice], the delivery text ['49'] and the total
    [getTotalPrice + 49]; [getTotalPrice] itself is the sum of the line
    amounts alone (0 for an empty cart).  Nothing the cart page does
    stores or sends an amount: [fetchCart] sends the cart read and one
    product read per returned row, [removeFromCart] the delete of the row
    and then, when it is fulfilled, the same reads, each with the address
    built from the backend address and the row's ids, the default
    credential and no body; [proceedToCheckout] sends nothing; all three
    leave local storage as it is. *)
Theorem delivery_charge_display_only (BACKEND_URL : string) (s : CartState) :
  let reads (w : Browser) (cart : Reply (list CartItem)) : list Request :=
    {| method := GET; url := (API BACKEND_URL ++ "/cart")%string;
       authorization := axios_headers w !! "Authorization"; body := None |} ::
    match cart with
    | Fulfilled items =>
        map (fun item =>
               {| method := GET;
                  url := (API BACKEND_URL ++ "/products/" ++ product_id item)%string;
                  authorization := axios_headers w !! "Authorization";
                  body := None |}) items
    | Rejected _ => []
    end in
  (order_summary s =
   if loading s then None
   else match cartItems s with
        | [] => None
        | _ :: _ =>
            Some {| subtotal := getTotalPrice s;
                    delivery := "49";
                    total := (getTotalPrice s + 49)%float |}
        end) /\
  getTotalPrice s = js_sum (map (line_amount (products s)) (cartItems s)) /\
  (cartItems s = [] -> getTotalPrice s = 0%float) /\
  (forall cart product w,
     let r := fetchCart BACKEND_URL cart product s w in
     localStorage r.2 = localStorage w /\
     sent r.2 = (sent w ++ reads w cart)%list) /\
  (forall itemId deleted cart product w,
     let r := removeFromCart BACKEND_URL itemId deleted cart product s w in
     localStorage r.2 = localStorage w /\
     sent r.2 =
     (sent w ++
      {| method := DELETE; url := (API BACKEND_URL ++ "/cart/" ++ itemId)%string;
         authorization := axios_headers w !! "Authorization"; body := None |} ::
      match deleted with
      | Fulfilled _ => reads w cart
      | Rejected _ => []
      end)%list) /\
  (forall w,
     localStorage (proceedToCheckout s w) = localStorage w /\
     sent (proceedToCheckout s w) = sent w).
Proof.
  cbv zeta.
  split; [|split; [|split; [|split; [|split]]]].
  - unfold order_summary.
    destruct (loading s); [reflexivity|].
    destruct (cartItems s); reflexivity.
  - apply getTotalPrice_sum.
  - intros H. unfold getTotalPrice. now rewrite H.
  - intros cart product w.
    destruct (fetchCart_browser BACKEND_URL cart product s w)
      as [Hl [_ [_ Hs]]].
    split; [exact Hl|]. exact Hs.
  - intros itemId deleted cart product w. unfold removeFromCart.
    destruct deleted as [v|e].
    + destruct (fetchCart_browser BACKEND_URL cart product s
                  (axios DELETE (API BACKEND_URL ++ "/cart/" ++ itemId) None w))
        as [Hl [_ [_ Hs]]].
      cbv zeta in *. rewrite Hl, Hs. simpl. split; [reflexivity|].
      rewrite <- app_assoc. reflexivity.
    + simpl. split; reflexivity.
  - intros w. unfold proceedToCheckout.
    destruct (cartItems s); split; reflexivity.
Qed.

(** ** Binary64 arithmetic on integers

    The specification of the primitive operations rounds the exact
    result; when the exact result is a binary64 number the rounding is
    the identity. *)

Section Binary64.
Local Open Scope Z_scope.

Lemma digits2_log2 (m : positive) :
  Zpos (digits2_pos m) = Z.log2 (Zpos m) + 1.
Proof.
  assert (H : forall p, digits2_pos p = Pos.size p)
    by (induction p as [p IH|p IH|]; simpl; congruence).
  rewrite H. destruct m; simpl; lia.
Qed.

Lemma digits2_shift (m : positive) (p : Z) :
  0 <= p -> Z.log2 (Zpos m * 2 ^ p) = Z.log2 (Zpos m) + p.
Proof. intros Hp. rewrite Z.log2_mul_pow2 by lia. lia. Qed.

Lemma iter_pos_iter {A : Type} (f : A -> A) (p : positive) (x : A) :
  SpecFloat.iter_pos f p x = Pos.iter f x p.
Proof.
  revert x. induction p as [p IH|p IH|]; intros x; simpl.
  - rewrite !IH, !Pos.iter_swap. reflexivity.
  - now rewrite !IH.
  - reflexivity.
Qed.

Lemma shr_shifted (m q : positive) :
  SpecFloat.iter_pos shr_1 q
    {| shr_m := Zpos (Pos.iter xO m q); shr_r := false; shr_s := false |}
  = {| shr_m := Zpos m; shr_r := false; shr_s := false |}.
Proof.
  rewrite iter_pos_iter. revert m.
  induction q as [|q IH] using Pos.peano_ind; intros m.
  - reflexivity.
  - rewrite Pos.iter_succ_r. rewrite Pos.iter_succ. simpl. apply IH.
Qed.

Lemma bounded_spec (m : positive) (e : Z) :
  bounded prec emax m e = true ->
  fexp prec emax (Zpos (digits2_pos m) + e) = e /\
  -1074 <= e <= 971 /\ Zpos (digits2_pos m) <= 53.
Proof.
  unfold bounded, canonical_mantissa, fexp, emin.
  change prec with 53. change emax with 1024.
  rewrite andb_true_iff, Z.eqb_eq, Z.leb_le. lia.
Qed.

Lemma pos_shift_eq (M m0 q : positive) :
  Zpos M = Zpos m0 * 2 ^ Zpos q -> M = Pos.iter xO m0 q.
Proof.
  intros H. apply Pos2Z.inj. rewrite H.
  change (Pos.iter xO m0 q) with (shift_pos q m0).
  rewrite shift_pos_correct. change (Z.pow_pos 2 q) with (2 ^ Zpos q). lia.
Qed.

Lemma shr_fexp_exact (M : positive) (e : Z) (m0 : positive) (e0 : Z) :
  bounded prec emax m0 e0 = true -> e <= e0 ->
  Zpos M = Zpos m0 * 2 ^ (e0 - e) ->
  shr_fexp prec emax (Zpos M) e loc_Exact =
  ({| shr_m := Zpos m0; shr_r := false; shr_s := false |}, e0).
Proof.
  intros Hb Hle HM. destruct (bounded_spec m0 e0 Hb) as [Hc _].
  unfold shr_fexp. cbn [Zdigits2 shr_record_of_loc].
  replace (Zpos (digits2_pos M) + e) with (Zpos (digits2_pos m0) + e0).
  2:{ rewrite !digits2_log2, HM, digits2_shift by lia. lia. }
  rewrite Hc. unfold shr.
  destruct (e0 - e) as [|q|q] eqn:Hq; [| |lia].
  - f_equal; [|lia]. f_equal. rewrite HM. simpl. lia.
  - rewrite (pos_shift_eq M m0 q HM), shr_shifted. f_equal. lia.
Qed.

Lemma binary_round_aux_exact (s : bool) (M : positive) (e : Z)
    (m0 : positive) (e0 : Z) :
  bounded prec emax m0 e0 = true -> e <= e0 ->
  Zpos M = Zpos m0 * 2 ^ (e0 - e) ->
  binary_round_aux prec emax s (Zpos M) e loc_Exact = S754_finite s m0 e0.
Proof.
  intros Hb Hle HM. unfold binary_round_aux.
  rewrite (shr_fexp_exact M e m0 e0 Hb Hle HM).
  cbn [shr_m loc_of_shr_record round_nearest_even].
  rewrite (shr_fexp_exact m0 e0 m0 e0 Hb) by (rewrite ?Z.sub_diag; lia).
  cbn [shr_m]. destruct (bounded_spec m0 e0 Hb) as [_ [He _]].
  change (emax - prec) with 971.
  destruct (Z.leb_spec e0 971); [reflexivity|lia].
Qed.

Lemma pow2_cancel (a b k : Z) : 0 <= k -> a * 2 ^ k = b * 2 ^ k -> a = b.
Proof.
  intros Hk H. apply Z.mul_reg_r in H; [assumption|].
  apply Z.pow_nonzero; lia.
Qed.

(** Rounding a value that a binary64 number [(m0, e0)] represents gives
    that number; [K] only serves to compare the two values as integers. *)
Lemma binary_round_exact (s : bool) (M : positive) (e : Z)
    (m0 : positive) (e0 K : Z) :
  bounded prec emax m0 e0 = true -> 0 <= e + K -> 0 <= e0 + K ->
  Zpos M * 2 ^ (e + K) = Zpos m0 * 2 ^ (e0 + K) ->
  binary_round prec emax s M e = S754_finite s m0 e0.
Proof.
  intros Hb He He0 Hv. destruct (bounded_spec m0 e0 Hb) as [Hc _].
  assert (Hd : Zpos (digits2_pos M) + e = Zpos (digits2_pos m0) + e0).
  { apply (f_equal Z.log2) in Hv. rewrite !digits2_shift in Hv by lia.
    rewrite !digits2_log2. lia. }
  unfold binary_round. rewrite Hd, Hc. unfold shl_align.
  destruct (e0 - e) as [|q|q] eqn:Hq.
  - apply binary_round_aux_exact; [assumption|lia|].
    rewrite Hq. replace e with e0 in Hv by lia.
    apply pow2_cancel in Hv; [|assumption]. change (2 ^ 0) with 1. lia.
  - apply binary_round_aux_exact; [assumption|lia|].
    rewrite Hq. replace (e0 + K) with (Zpos q + (e + K)) in Hv by lia.
    rewrite (Z.pow_add_r 2 (Zpos q) (e + K)), Z.mul_assoc in Hv by lia.
    now apply pow2_cancel in Hv.
  - replace (Pos.iter xO M q) with m0.
    + apply binary_round_aux_exact; [assumption|lia|].
      rewrite Z.sub_diag. change (2 ^ 0) with 1. lia.
    + apply pos_shift_eq.
      replace (e + K) with (Zpos q + (e0 + K)) in Hv by lia.
      rewrite (Z.pow_add_r 2 (Zpos q) (e0 + K)), Z.mul_assoc in Hv by lia.
      apply pow2_cancel in Hv; [|assumption]. lia.
Qed.

Lemma SF_nat_finite (m : positive) (e a K : Z) :
  SF_nat (S754_finite false m e) = Some a -> 0 <= K -> 0 <= e + K ->
  Zpos m * 2 ^ (e + K) = a * 2 ^ K.
Proof.
  unfold SF_nat. intros H HK HeK.
  destruct (Z.leb_spec 0 e) as [He|He].
  - injection H as <-. rewrite Z.pow_add_r by lia. lia.
  - destruct (Z.eqb_spec (Zpos m mod 2 ^ (- e)) 0) as [Hmod|]; [|discriminate].
    injection H as <-.
    replace K with ((- e) + (e + K)) at 2 by lia.
    rewrite (Z.pow_add_r 2 (- e) (e + K)), Z.mul_assoc by lia. f_equal.
    rewrite Z.mul_comm. symmetry. apply Z.div_exact in Hmod; [lia|].
    apply Z.pow_nonzero; lia.
Qed.

Lemma SF_nat_intro (m : positive) (e n K : Z) :
  0 <= K -> 0 <= e + K -> Zpos m * 2 ^ (e + K) = n * 2 ^ K ->
  SF_nat (S754_finite false m e) = Some n.
Proof.
  intros HK HeK Hv. unfold SF_nat.
  destruct (Z.leb_spec 0 e) as [He|He].
  - f_equal. rewrite (Z.pow_add_r 2 e K), Z.mul_assoc in Hv by lia.
    now apply pow2_cancel in Hv.
  - replace K with ((- e) + (e + K)) in Hv at 2 by lia.
    rewrite (Z.pow_add_r 2 (- e) (e + K)), Z.mul_assoc in Hv by lia.
    apply pow2_cancel in Hv; [|assumption].
    rewrite Hv, Z.mod_mul, Z.div_mul by (apply Z.pow_nonzero; lia).
    reflexivity.
Qed.

Lemma rescale (m n e K K' : Z) :
  0 <= e + K -> 0 <= K <= K' -> m * 2 ^ (e + K) = n * 2 ^ K ->
  m * 2 ^ (e + K') = n * 2 ^ K'.
Proof.
  intros HeK HK Hv.
  assert (Hk : exists k, 0 <= k /\ K' = K + k) by (exists (K' - K); lia).
  destruct Hk as [k [Hk ->]].
  rewrite Z.add_assoc, (Z.pow_add_r 2 (e + K) k), (Z.pow_add_r 2 K k) by lia.
  now rewrite !Z.mul_assoc, Hv.
Qed.

(** Every integer from 1 to 2^53 is a binary64 number. *)
Lemma canonical_exists (n : Z) :
  0 < n <= 2 ^ 53 ->
  exists m0 e0, bounded prec emax m0 e0 = true /\ -52 <= e0 /\
                Zpos m0 * 2 ^ (e0 + 52) = n * 2 ^ 52.
Proof.
  intros [Hpos Hle].
  destruct (Z.eq_dec n (2 ^ 53)) as [->|Hne].
  - exists (Z.to_pos (2 ^ 52)), 1. split; [reflexivity|]. split; [lia|reflexivity].
  - assert (Hlog : 0 <= Z.log2 n < 53).
    { split; [apply Z.log2_nonneg|]. apply Z.log2_lt_pow2; lia. }
    set (d := Z.log2 n + 1).
    assert (Hm : 0 < n * 2 ^ (53 - d)).
    { apply Z.mul_pos_pos; [lia|]. apply Z.pow_pos_nonneg; lia. }
    exists (Z.to_pos (n * 2 ^ (53 - d))), (d - 53).
    split; [|split].
    + unfold bounded, canonical_mantissa, fexp, emin.
      change prec with 53. change emax with 1024.
      rewrite digits2_log2, Z2Pos.id by assumption.
      rewrite Z.log2_mul_pow2 by lia.
      rewrite andb_true_iff, Z.eqb_eq, Z.leb_le. lia.
    + lia.
    + rewrite Z2Pos.id by assumption. rewrite <- Z.mul_assoc, <- Z.pow_add_r by lia.
      f_equal. f_equal. lia.
Qed.

Lemma shl_align_fst (m : positive) (e e' : Z) :
  e' <= e -> Zpos (fst (shl_align m e e')) = Zpos m * 2 ^ (e - e').
Proof.
  intros Hle. unfold shl_align.
  destruct (e' - e) as [|q|q] eqn:Hq; simpl.
  - replace (e - e') with 0 by lia. simpl. lia.
  - lia.
  - change (Pos.iter xO m q) with (shift_pos q m).
    rewrite shift_pos_correct. change (Z.pow_pos 2 q) with (2 ^ Zpos q).
    replace (e - e') with (Zpos q) by lia. lia.
Qed.

Lemma SF_nat_valid_finite (m : positive) (e a : Z) :
  bounded prec emax m e = true -> SF_nat (S754_finite false m e) = Some a ->
  0 < a /\ Zpos m * 2 ^ (e + 1074) = a * 2 ^ 1074.
Proof.
  intros Hb Ha. destruct (bounded_spec m e Hb) as [_ [He _]].
  assert (Hv := SF_nat_finite m e a 1074 Ha ltac:(lia) ltac:(lia)).
  split; [|exact Hv].
  assert (0 < 2 ^ (e + 1074)) by (apply Z.pow_pos_nonneg; lia).
  assert (0 < 2 ^ 1074) by (apply Z.pow_pos_nonneg; lia).
  nia.
Qed.

Lemma SF_nat_nonneg (f : spec_float) (a : Z) :
  valid_binary f = true -> SF_nat f = Some a -> 0 <= a.
Proof.
  destruct f as [[|]| | |[|] m e]; simpl; try discriminate.
  - intros _ [= <-]. lia.
  - intros Hb Ha. destruct (SF_nat_valid_finite m e a Hb Ha). lia.
Qed.

Lemma SFadd_nat (X Y : spec_float) (a b : Z) :
  valid_binary X = true -> valid_binary Y = true ->
  SF_nat X = Some a -> SF_nat Y = Some b -> a + b <= 2 ^ 53 ->
  SF_nat (SFadd prec emax X Y) = Some (a + b).
Proof.
  intros HX HY Ha Hb Hle.
  destruct X as [[|]| | |[|] mx ex]; try discriminate Ha;
    destruct Y as [[|]| | |[|] my ey]; try discriminate Hb.
  - injection Ha as <-. injection Hb as <-. reflexivity.
  - injection Ha as <-. exact Hb.
  - injection Hb as <-. now rewrite Z.add_0_r.
  - simpl in HX, HY.
    destruct (SF_nat_valid_finite mx ex a HX Ha) as [Hapos Hva].
    destruct (SF_nat_valid_finite my ey b HY Hb) as [Hbpos Hvb].
    destruct (bounded_spec mx ex HX) as [_ [Hex _]].
    destruct (bounded_spec my ey HY) as [_ [Hey _]].
    destruct (canonical_exists (a + b)) as [m0 [e0 [Hb0 [He0 Hv0]]]]; [lia|].
    apply (rescale _ _ _ 52 1074) in Hv0; [|lia|lia].
    unfold SFadd, cond_Zopp.
    rewrite <- Pos2Z.inj_add. cbn [binary_normalize].
    rewrite (binary_round_exact false _ (Z.min ex ey) m0 e0 1074);
      [apply (SF_nat_intro m0 e0 (a + b) 1074); [lia|lia|exact Hv0]
      |exact Hb0|lia|lia|].
    rewrite Hv0, Pos2Z.inj_add, !shl_align_fst by lia.
    rewrite Z.mul_add_distr_r, <- !Z.mul_assoc, <- !Z.pow_add_r by lia.
    replace (ex - Z.min ex ey + (Z.min ex ey + 1074)) with (ex + 1074) by lia.
    replace (ey - Z.min ex ey + (Z.min ex ey + 1074)) with (ey + 1074) by lia.
    lia.
Qed.

Lemma integer_normal (m : positive) (e a : Z) :
  bounded prec emax m e = true -> 0 < a ->
  Zpos m * 2 ^ (e + 1074) = a * 2 ^ 1074 ->
  Z.log2 (Zpos m) = 52.
Proof.
  intros Hb Ha Hv. destruct (bounded_spec m e Hb) as [Hc [He Hd]].
  rewrite digits2_log2 in Hc, Hd.
  assert (Hm : Zpos m < 2 ^ 53) by (apply Z.log2_lt_pow2; lia).
  assert (He' : 1074 < e + 1127).
  { apply (Z.pow_lt_mono_r_iff 2); [lia|lia|].
    replace (e + 1127) with (53 + (e + 1074)) by lia.
    rewrite (Z.pow_add_r 2 53 (e + 1074)) by lia.
    assert (0 < 2 ^ (e + 1074)) by (apply Z.pow_pos_nonneg; lia).
    assert (0 < 2 ^ 1074) by (apply Z.pow_pos_nonneg; lia).
    nia. }
  unfold fexp, emin in Hc. change prec with 53 in Hc. change emax with 1024 in Hc.
  lia.
Qed.

Lemma SFmul_nat (X Y : spec_float) (a b : Z) :
  valid_binary X = true -> valid_binary Y = true ->
  SF_nat X = Some a -> SF_nat Y = Some b -> a * b <= 2 ^ 53 ->
  SF_nat (SFmul prec emax X Y) = Some (a * b).
Proof.
  intros HX HY Ha Hb Hle.
  destruct X as [[|]| | |[|] mx ex]; try discriminate Ha;
    destruct Y as [[|]| | |[|] my ey]; try discriminate Hb.
  - injection Ha as <-. injection Hb as <-. reflexivity.
  - injection Ha as <-. reflexivity.
  - injection Hb as <-. now rewrite Z.mul_0_r.
  - simpl in HX, HY.
    destruct (SF_nat_valid_finite mx ex a HX Ha) as [Hapos Hva].
    destruct (SF_nat_valid_finite my ey b HY Hb) as [Hbpos Hvb].
    destruct (bounded_spec mx ex HX) as [_ [Hex _]].
    destruct (bounded_spec my ey HY) as [_ [Hey _]].
    assert (Hlx := integer_normal mx ex a HX Hapos Hva).
    assert (Hly := integer_normal my ey b HY Hbpos Hvb).
    destruct (canonical_exists (a * b)) as [m0 [e0 [Hb0 [He0 Hv0]]]]; [nia|].
    apply (rescale _ _ _ 52 2148) in Hv0; [|lia|lia].
    destruct (bounded_spec m0 e0 Hb0) as [_ [_ Hd0]]. rewrite digits2_log2 in Hd0.
    assert (Hv : Zpos (mx * my) * 2 ^ (ex + ey + 2148) = Zpos m0 * 2 ^ (e0 + 2148)).
    { rewrite Hv0, Pos2Z.inj_mul.
      replace (ex + ey + 2148) with ((ex + 1074) + (ey + 1074)) by lia.
      replace 2148 with (1074 + 1074) at 2 by lia.
      rewrite !Z.pow_add_r by lia.
      transitivity ((Zpos mx * 2 ^ (ex + 1074)) * (Zpos my * 2 ^ (ey + 1074)));
        [ring|]. rewrite Hva, Hvb. ring. }
    assert (Hee : ex + ey <= e0).
    { assert (Hl := f_equal Z.log2 Hv). rewrite !digits2_shift in Hl by lia.
      assert (Hbelow := Z.log2_mul_below (Zpos mx) (Zpos my) ltac:(lia) ltac:(lia)).
      rewrite <- Pos2Z.inj_mul in Hbelow. lia. }
    unfold SFmul. cbn [xorb].
    rewrite (binary_round_aux_exact false (mx * my) (ex + ey) m0 e0 Hb0 Hee).
    + apply (SF_nat_intro m0 e0 (a * b) 2148); [lia|lia|exact Hv0].
    + replace (e0 + 2148) with ((e0 - (ex + ey)) + (ex + ey + 2148)) in Hv by lia.
      rewrite (Z.pow_add_r 2 (e0 - (ex + ey))), Z.mul_assoc in Hv by lia.
      apply pow2_cancel in Hv; [exact Hv|lia].
Qed.

Lemma SF_nat_inj (X Y : spec_float) (n : Z) :
  valid_binary X = true -> valid_binary Y = true ->
  SF_nat X = Some n -> SF_nat Y = Some n -> X = Y.
Proof.
  intros HX HY Hx Hy.
  destruct X as [[|]| | |[|] mx ex]; try discriminate Hx;
    destruct Y as [[|]| | |[|] my ey]; try discriminate Hy.
  - reflexivity.
  - injection Hx as <-. destruct (SF_nat_valid_finite my ey 0 HY Hy). lia.
  - injection Hy as <-. destruct (SF_nat_valid_finite mx ex 0 HX Hx). lia.
  - simpl in HX, HY.
    destruct (SF_nat_valid_finite mx ex n HX Hx) as [_ Hvx].
    destruct (SF_nat_valid_finite my ey n HY Hy) as [_ Hvy].
    destruct (bounded_spec mx ex HX) as [_ [Hex _]].
    destruct (bounded_spec my ey HY) as [_ [Hey _]].
    rewrite <- (binary_round_exact false mx ex mx ex 1074 HX) by lia.
    apply (binary_round_exact false mx ex my ey 1074 HY); lia.
Qed.

(** Exact integer arithmetic on numbers. *)

Lemma add_exact (x y : float) (a b : Z) :
  nat_value x = Some a -> nat_value y = Some b -> a + b <= 2 ^ 53 ->
  nat_value (x + y) = Some (a + b).
Proof.
  unfold nat_value. intros Ha Hb Hle. rewrite add_spec.
  apply SFadd_nat; auto using Prim2SF_valid.
Qed.

Lemma mul_exact (x y : float) (a b : Z) :
  nat_value x = Some a -> nat_value y = Some b -> a * b <= 2 ^ 53 ->
  nat_value (x * y) = Some (a * b).
Proof.
  unfold nat_value. intros Ha Hb Hle. rewrite mul_spec.
  apply SFmul_nat; auto using Prim2SF_valid.
Qed.

Lemma nat_value_inj (x y : float) (n : Z) :
  nat_value x = Some n -> nat_value y = Some n -> x = y.
Proof.
  unfold nat_value. intros Hx Hy. apply Prim2SF_inj.
  apply (SF_nat_inj _ _ n); auto using Prim2SF_valid.
Qed.

Lemma nat_value_nonneg (x : float) (a : Z) : nat_value x = Some a -> 0 <= a.
Proof. apply SF_nat_nonneg, Prim2SF_valid. Qed.

(** Sums never are the negative zero. *)









End Binary64.

(** ** The total of a cart *)




Lemma exact_line_nonneg (m : gmap string Product) (item : CartItem) (a : Z) :
  exact_line m item = Some a -> (0 <= a)%Z.
Proof.
  unfold exact_line. destruct (js_get m (product_id item)) as [p| |].
  - destruct (nat_value (price p)) as [ap|] eqn:Hp; [|discriminate].
    destruct (nat_value (quantity item)) as [q|] eqn:Hq; [|discriminate].
    intros [= <-].
    apply Z.mul_nonneg_nonneg; eauto using nat_value_nonneg.
  - discriminate.
  - intros [= <-]. lia.
Qed.

Lemma exact_line_amount (m : gmap string Product) (item : CartItem) (a : Z) :
  exact_line m item = Some a -> (a <= 2 ^ 53)%Z ->
  nat_value (line_amount m item) = Some a.
Proof.
  unfold exact_line, line_amount.
  destruct (js_get m (product_id item)) as [p| |].
  - destruct (nat_value (price p)) as [ap|] eqn:Hp; [|discriminate].
    destruct (nat_value (quantity item)) as [q|] eqn:Hq; [|discriminate].
    intros [= <-] Hle. now apply mul_exact.
  - discriminate.
  - intros [= <-] _. reflexivity.
Qed.

Lemma exact_sum_nonneg (m : gmap string Product) (items : list CartItem) :
  forall n, exact_sum (map (exact_line m) items) = Some n -> (0 <= n)%Z.
Proof.
  induction items as [|item items IH]; intros n; cbn [map exact_sum].
  - intros [= <-]. lia.
  - destruct (exact_line m item) as [a|] eqn:Ha; [|discriminate].
    destruct (exact_sum _) as [t|]; [|discriminate].
    intros [= <-]. apply exact_line_nonneg in Ha. specialize (IH t eq_refl). lia.
Qed.

(** With integer lines and a total of at most 2^53, every partial sum is
    the integer it should be. *)
Lemma sum_from_exact (m : gmap string Product) (items : list CartItem) :
  forall acc k n,
    nat_value acc = Some k ->
    exact_sum (map (exact_line m) items) = Some n ->
    (k + n <= 2 ^ 53)%Z ->
    nat_value (sum_from acc (map (line_amount m) items)) = Some (k + n)%Z.
Proof.
  induction items as [|item items IH]; intros acc k n Hacc; cbn [map exact_sum sum_from].
  - intros [= <-] _. now rewrite Z.add_0_r.
  - destruct (exact_line m item) as [a|] eqn:Ha; [|discriminate].
    destruct (exact_sum _) as [t|] eqn:Ht; [|discriminate].
    intros [= <-] Hle.
    pose proof (exact_line_nonneg m item a Ha) as Ha0.
    pose proof (exact_sum_nonneg m items t Ht) as Ht0.
    pose proof (nat_value_nonneg acc k Hacc) as Hk0.
    rewrite Z.add_assoc. apply IH; [|reflexivity|lia].
    apply add_exact; [assumption| |lia].
    apply exact_line_amount; [assumption|lia].
Qed.

Lemma exact_sum_perm (lines lines' : list (option Z)) :
  lines ≡ₚ lines' -> exact_sum lines = exact_sum lines'.
Proof.
  induction 1 as [|x l l' _ IH|x y l|l l' l'' _ IH1 _ IH2]; cbn [exact_sum].
  - reflexivity.
  - now rewrite IH.
  - destruct x as [a|], y as [b|], (exact_sum l) as [t|]; simpl;
      try reflexivity. f_equal. lia.
  - congruence.
Qed.

Lemma getTotalPrice_exact (s : CartState) (n : Z) :
  exact_total s = Some n -> (n <= 2 ^ 53)%Z ->
  nat_value (getTotalPrice s) = Some n.
Proof.
  intros Hn Hle. rewrite getTotalPrice_sum.
  exact (sum_from_exact (products s) (cartItems s) 0%float 0%Z n
           eq_refl Hn Hle).
Qed.

Lemma existsb_eqb_elem_of (k : string) (names : list string) :
  existsb (String.eqb k) names = true <-> k ∈ names.
Proof.
  induction names as [|n names IH]; simpl.
  - split; [discriminate|]. intros H. now apply elem_of_nil in H.
  - rewrite orb_true_iff, IH, elem_of_cons.
    destruct (String.eqb_spec k n); intuition discriminate.
Qed.

Lemma inherited_plain (m : gmap string Product) (k : string) :
  m !! "__proto__" = None ->
  inherited m k = true <-> k ∈ object_prototype_names.
Proof.
  intros H. unfold inherited. rewrite H.
  exact (existsb_eqb_elem_of k object_prototype_names).
Qed.

Lemma js_get_plain (m : gmap string Product) (k : string) :
  m !! k = None -> m !! "__proto__" = None ->
  js_get m k = if decide (k ∈ object_prototype_names) then Truthy else Falsy.
Proof.
  intros Hk Hp. unfold js_get. rewrite Hk.
  pose proof (inherited_plain m k Hp) as Hi.
  destruct (inherited m k); destruct (decide _) as [Hin|Hin]; try reflexivity.
  - exfalso. apply Hin, Hi. reflexivity.
  - apply Hi in Hin. discriminate Hin.
Qed.

Lemma filter_iff_in {A : Type} (P1 P2 : A -> Prop)
    `{forall x, Decision (P1 x)} `{forall x, Decision (P2 x)} (l : list A) :
  (forall x, x ∈ l -> P1 x <-> P2 x) -> filter P1 l = filter P2 l.
Proof.
  induction l as [|a l IH]; intros Hiff; [reflexivity|].
  assert (Hl : filter P1 l = filter P2 l)
    by (apply IH; intros x Hx; apply Hiff; now right).
  destruct (decide (P1 a)) as [Ha|Ha].
  - rewrite !filter_cons_True; [now rewrite Hl| |assumption].
    apply Hiff; [left|assumption].
  - rewrite !filter_cons_False; [exact Hl| |assumption].
    intros Ha2. apply Ha, Hiff; [left|assumption].
Qed.




(** C6 (as the code has it): two carts with the same product map whose
    rows are a permutation of one another have the same total whenever
    prices and quantities are non-negative integers, no row reads a
    property the map object inherits, and the integer sum of the lines is
    at most 2^53 (this is [exact_total s = Some n]); the total is then
    that integer. *)
Theorem getTotalPrice_permutation_integers (s s' : CartState) (n : Z) :
  products s = products s' ->
  cartItems s ≡ₚ cartItems s' ->
  exact_total s = Some n -> (n <= 2 ^ 53)%Z ->
  getTotalPrice s = getTotalPrice s' /\
  nat_value (getTotalPrice s) = Some n.
Proof.
  intros Hp Hperm Hn Hle.
  assert (Hn' : exact_total s' = Some n).
  { rewrite <- Hn. unfold exact_total. rewrite <- Hp. symmetry.
    apply exact_sum_perm. now apply Permutation_map. }
  pose proof (getTotalPrice_exact s n Hn Hle) as H1.
  pose proof (getTotalPrice_exact s' n Hn' Hle) as H2.
  split; [exact (nat_value_inj _ _ n H1 H2)|exact H1].
Qed.

Lemma rows_backward_perm : rows_forward ≡ₚ rows_backward.
Proof.
  unfold rows_forward, rows_backward.
  etransitivity; [apply perm_skip, perm_swap|].
  etransitivity; [apply perm_swap|].
  apply perm_skip, perm_swap.
Qed.

(** C6 as claimed fails: the same three rows in two orders total
    115.73 and 115.72999999999999. *)
Lemma reordered_cart_other_total :
  cartItems (cart_of fractional_prices rows_forward) ≡ₚ
    cartItems (cart_of fractional_prices rows_backward) /\
  getTotalPrice (cart_of fractional_prices rows_forward)
    = 0x1.ceeb851eb851fp+6%float /\
  getTotalPrice (cart_of fractional_prices rows_backward)
    = 0x1.ceeb851eb851ep+6%float /\
  getTotalPrice (cart_of fractional_prices rows_forward) <>
    getTotalPrice (cart_of fractional_prices rows_backward).
Proof.
  split; [exact rows_backward_perm|].
  split; [vm_compute; reflexivity|].
  split; [vm_compute; reflexivity|].
  vm_compute. intros H. discriminate H.
Qed.

Lemma getTotalPrice_permutation_integers_witness :
  getTotalPrice (cart_of whole_prices rows_whole) =
    getTotalPrice (cart_of whole_prices rows_whole_backward) /\
  nat_value (getTotalPrice (cart_of whole_prices rows_whole)) = Some 1335%Z.
Proof.
  apply (getTotalPrice_permutation_integers
           (cart_of whole_prices rows_whole)
           (cart_of whole_prices rows_whole_backward) 1335%Z).
  - reflexivity.
  - cbn [cartItems cart_of]. unfold rows_whole, rows_whole_backward.
    etransitivity; [apply perm_skip, perm_swap|].
    etransitivity; [apply perm_swap|].
    apply perm_skip, perm_swap.
  - vm_compute. reflexivity.
  - vm_compute. discriminate.
Defined.

(** * Further properties of the pages *)

(** ** Session store: login, logout and the lookup *)

(** X1: a logout after a login leaves no user and no token, and puts
    local storage and the default headers back as they were without the
    [token] key and the [Authorization] header; on a browser that had
    neither, the browser is exactly as before the login. *)
Theorem logout_undoes_login (userData : User) (userToken : string)
    (s : AuthState) (w : Browser) :
  let r1 := login userData userToken s w in
  let r := logout r1.1 r1.2 in
  isAuthenticated r1.1 = true /\
  isAuthenticated r.1 = false /\ token r.1 = None /\
  localStorage r.2 = delete "token" (localStorage w) /\
  axios_headers r.2 = delete "Authorization" (axios_headers w) /\
  (localStorage w !! "token" = None ->
   axios_headers w !! "Authorization" = None -> r.2 = w).
Proof.
  unfold login, logout, setItem, set_header, removeItem, delete_header. simpl.
  rewrite !delete_insert_eq. repeat split.
  intros Hs Hh. rewrite !delete_id by assumption. now destruct w.
Qed.

Lemma session_step_coherent (BACKEND_URL : string) (ev : SessionEvent)
    (sw : AuthState * Browser) :
  session_coherent sw -> session_coherent (session_step BACKEND_URL ev sw).
Proof.
  destruct sw as [s w]. unfold session_coherent. simpl. intros [Ht Hh].
  destruct ev as [userData userToken| | |[value|error]]; simpl.
  - rewrite !lookup_insert_eq. split; [reflexivity|]. right. eauto.
  - rewrite !lookup_delete_eq. auto.
  - unfold revalidation_start.
    destruct (token s) as [t|] eqn:Hs; [|auto].
    destruct (truthy (Some t)); [|auto].
    simpl. rewrite lookup_insert_eq. split; [exact Ht|]. right. exists t. auto.
  - auto.
  - rewrite !lookup_delete_eq. auto.
Qed.

(** X2: from a page load (the stored token in state, no credential
    header yet) and through logins, logouts, lookups starting and lookups
    settling in any order, the token in state is always the stored one,
    and the credential header, whenever one is installed, carries the
    stored token. *)
Theorem session_run_coherent (BACKEND_URL : string)
    (evs : list SessionEvent) (w : Browser) :
  axios_headers w !! "Authorization" = None ->
  session_coherent (session_run BACKEND_URL evs (auth_init w, w)).
Proof.
  intros Hw.
  assert (H0 : session_coherent (auth_init w, w)) by (split; [reflexivity|now left]).
  unfold session_run. revert H0. generalize (auth_init w, w).
  induction evs as [|ev evs IH]; intros sw Hsw; simpl; [exact Hsw|].
  apply IH. now apply session_step_coherent.
Qed.

Lemma session_run_coherent_witness :
  session_coherent
    (session_run "http://localhost:8001"
       [ LookupStarts; Login asha "fresh.jwt"; LookupStarts;
         LookupSettles (Rejected {| response := None |});
         LookupSettles (Fulfilled asha) ]
       (auth_init stored_session, stored_session)).
Proof.
  apply (session_run_coherent "http://localhost:8001"). reflexivity.
Defined.

(** X3: the lookup that follows a login with a non-empty token leaves
    with that token as credential, and when it is fulfilled the user of
    the session is the one the lookup returned, not the one of the login
    reply; token and stored token stay those of the login. *)
Theorem lookup_after_login (BACKEND_URL : string) (userData me : User)
    (userToken : string) (s : AuthState) (w : Browser) :
  userToken <> "" ->
  let r1 := login userData userToken s w in
  let r := revalidation BACKEND_URL (Fulfilled me) r1.1 r1.2 in
  user r.1 = Some me /\ token r.1 = Some userToken /\
  localStorage r.2 !! "token" = Some userToken /\
  sent r.2 = (sent w ++
              [ plain_request GET (Some ("Bearer " ++ userToken)%string)
                  (API BACKEND_URL ++ "/auth/me") ])%list.
Proof.
  intros Hne. unfold revalidation, revalidation_start, login. simpl.
  destruct (String.eqb_spec userToken ""); [contradiction|]. simpl.
  rewrite !lookup_insert_eq. repeat split.
Qed.

Lemma lookup_after_login_witness :
  let r1 := login asha "fresh.jwt" (auth_init blank) blank in
  let r := revalidation "http://localhost:8001"
             (Fulfilled asha_renamed) r1.1 r1.2 in
  user r.1 = Some asha_renamed.
Proof.
  apply (lookup_after_login "http://localhost:8001" asha asha_renamed
           "fresh.jwt" (auth_init blank) blank).
  discriminate.
Defined.

(** X4: the fulfilment callback of the lookup sets the user whatever
    the session has become.  After login, lookup start, logout and then
    the fulfilment of that lookup, the session counts as authenticated
    and the wrapped routes render, although no token is in state or in
    storage and no credential header is installed. *)
Theorem late_lookup_revives_user (BACKEND_URL : string) (userData me : User)
    (userToken : string) (s : AuthState) (w : Browser) :
  let r := session_run BACKEND_URL
             [ Login userData userToken; LookupStarts; Logout;
               LookupSettles (Fulfilled me) ] (s, w) in
  isAuthenticated r.1 = true /\ user r.1 = Some me /\
  token r.1 = None /\
  localStorage r.2 !! "token" = None /\
  axios_headers r.2 !! "Authorization" = None /\
  route "/cart" r.1 = Some Render.
Proof.
  unfold session_run. simpl.
  unfold revalidation_start. simpl.
  destruct (negb (String.eqb userToken "")); simpl;
    rewrite !lookup_delete_eq; repeat split.
Qed.

(** ** Navigation and the landing page *)

(** X5: every link the navigation bar shows, and the target of the
    landing page's button, is a route that renders for the current
    session (none of them redirects); the Admin link is shown exactly
    when the [/admin] route renders. *)
Theorem shown_links_render (s : AuthState) :
  (forall path, path ∈ nav_links s -> route path s = Some Render) /\
  route (hero_target s) s = Some Render /\
  ("/admin" ∈ nav_links s <-> route "/admin" s = Some Render).
Proof.
  unfold nav_links, hero_target, isAuthenticated.
  destruct s as [[u|] t]; simpl.
  - destruct (String.eqb_spec (user_role u) "admin") as [Hr|Hr].
    + split; [|split].
      * intros path Hp.
        repeat (apply elem_of_cons in Hp as [->|Hp];
                [first [reflexivity
                       |unfold route, gate, ProtectedRoute; simpl;
                        now rewrite Hr]|]).
        now apply elem_of_nil in Hp.
      * reflexivity.
      * split.
        -- intros _. unfold route, gate, ProtectedRoute. simpl. now rewrite Hr.
        -- intros _. rewrite !elem_of_cons. auto 10.
    + split; [|split].
      * intros path Hp.
        repeat (apply elem_of_cons in Hp as [->|Hp]; [reflexivity|]).
        now apply elem_of_nil in Hp.
      * reflexivity.
      * split.
        -- intros Hp.
           repeat (apply elem_of_cons in Hp as [Hp|Hp]; [discriminate Hp|]).
           now apply elem_of_nil in Hp.
        -- unfold route, gate, ProtectedRoute, isAuthenticated. simpl.
           destruct (String.eqb_spec (user_role u) "admin");
             [contradiction|discriminate].
  - split; [|split].
    + intros path Hp.
      repeat (apply elem_of_cons in Hp as [->|Hp]; [reflexivity|]).
      now apply elem_of_nil in Hp.
    + reflexivity.
    + split.
      * intros Hp.
        repeat (apply elem_of_cons in Hp as [Hp|Hp]; [discriminate Hp|]).
        now apply elem_of_nil in Hp.
      * discriminate.
Qed.

(** ** The login and registration forms *)

(** X6: [handleLogin] posts the typed credentials once.  While the
    request is in flight the form is loading (the button is disabled);
    when it settles loading is off, whatever the outcome.  A fulfilled
    reply signs the returned user in with the returned token and moves to
    [/products], which then renders; a rejected reply changes neither the
    session nor the address and shows one dialog with the backend's
    detail or ['Unknown error']. *)
Theorem handleLogin_outcomes (BACKEND_URL : string)
    (reply : Reply LoginPage.LoginData) (p : LoginPage.state)
    (s : AuthState) (win : Window) :
  let r := LoginPage.handleLogin BACKEND_URL reply p s win in
  LoginPage.loading (LoginPage.handleLogin_start BACKEND_URL p win).1 = true /\
  LoginPage.loading r.1.1 = false /\
  wire r.2 =
    (wire win ++
     [ {| verb := Post; target := (API BACKEND_URL ++ "/auth/login")%string;
          query := [];
          credential := axios_headers (browser win) !! "Authorization";
          form := Some (Credentials (LoginPage.email p)
                                    (LoginPage.password p)) |} ])%list /\
  (forall d, reply = Fulfilled d ->
     user r.1.2 = Some (LoginPage.user d) /\
     token r.1.2 = Some (LoginPage.access_token d) /\
     localStorage (browser r.2) !! "token" = Some (LoginPage.access_token d) /\
     axios_headers (browser r.2) !! "Authorization"
       = Some ("Bearer " ++ LoginPage.access_token d)%string /\
     alerts (browser r.2) = alerts (browser win) /\
     pathname r.2 = "/products" /\
     route (pathname r.2) r.1.2 = Some Render) /\
  (forall error, reply = Rejected error ->
     r.1.2 = s /\ pathname r.2 = pathname win /\
     localStorage (browser r.2) = localStorage (browser win) /\
     axios_headers (browser r.2) = axios_headers (browser win) /\
     alerts (browser r.2) =
       (alerts (browser win) ++
        [ ("Login failed: " ++
           or_else (error_detail error) "Unknown error")%string ])%list).
Proof.
  unfold LoginPage.handleLogin, LoginPage.handleLogin_start,
    LoginPage.handleLogin_settle.
  destruct reply as [d|e]; simpl;
    (split; [reflexivity|]); (split; [reflexivity|]);
    (split; [reflexivity|]); split.
  - intros d' [= <-]. rewrite !lookup_insert_eq. repeat split.
  - intros e' He'. discriminate He'.
  - intros d' Hd'. discriminate Hd'.
  - intros e' [= <-]. repeat split.
Qed.

(** X7: [handleRegister] posts the form, and posts the login only after
    the registration was fulfilled, with the e-mail and password of the
    form.  A rejected registration sends nothing more.  When the
    registration is fulfilled but the login that follows is rejected, the
    dialog still reads ['Registration failed: ...'], with the detail of
    the login error, and the session is left as it was.  In every case
    loading is off at the end. *)
Theorem handleRegister_outcomes (BACKEND_URL : string)
    (registered : Reply unit) (loggedIn : Reply LoginPage.LoginData)
    (p : RegisterPage.state) (s : AuthState) (win : Window) :
  let r := RegisterPage.handleRegister BACKEND_URL registered loggedIn p s win in
  let auth := axios_headers (browser win) !! "Authorization" in
  let register_call :=
    {| verb := Post; target := (API BACKEND_URL ++ "/auth/register")%string;
       query := []; credential := auth;
       form := Some (Registration (RegisterPage.formData p)) |} in
  let login_call :=
    {| verb := Post; target := (API BACKEND_URL ++ "/auth/login")%string;
       query := []; credential := auth;
       form := Some (Credentials (form_email (RegisterPage.formData p))
                                 (form_password (RegisterPage.formData p))) |} in
  RegisterPage.loading r.1.1 = false /\
  (forall error, registered = Rejected error ->
     wire r.2 = (wire win ++ [register_call])%list /\
     r.1.2 = s /\ pathname r.2 = pathname win /\
     alerts (browser r.2) =
       (alerts (browser win) ++
        [ ("Registration failed: " ++
           or_else (error_detail error) "Unknown error")%string ])%list) /\
  (forall v error, registered = Fulfilled v -> loggedIn = Rejected error ->
     wire r.2 = (wire win ++ [register_call; login_call])%list /\
     r.1.2 = s /\ pathname r.2 = pathname win /\
     alerts (browser r.2) =
       (alerts (browser win) ++
        [ ("Registration failed: " ++
           or_else (error_detail error) "Unknown error")%string ])%list) /\
  (forall v d, registered = Fulfilled v -> loggedIn = Fulfilled d ->
     wire r.2 = (wire win ++ [register_call; login_call])%list /\
     user r.1.2 = Some (LoginPage.user d) /\
     localStorage (browser r.2) !! "token" = Some (LoginPage.access_token d) /\
     alerts (browser r.2) = alerts (browser win) /\
     route (pathname r.2) r.1.2 = Some Render).
Proof.
  unfold RegisterPage.handleRegister.
  destruct registered as [v|e]; [destruct loggedIn as [d|e]|]; simpl;
    (split; [reflexivity|]); (split; [|split]).
  - intros e' He'. discriminate He'.
  - intros v' e' _ He'. discriminate He'.
  - intros v' d' _ [= <-]. rewrite <- app_assoc, lookup_insert_eq.
    repeat split.
  - intros e' He'. discriminate He'.
  - intros v' e' _ [= <-]. rewrite <- app_assoc. repeat split.
  - intros v' d' _ Hd'. discriminate Hd'.
  - intros e' [= <-]. repeat split.
  - intros v' e' Hv'. discriminate Hv'.
  - intros v' d' Hv'. discriminate Hv'.
Qed.

Lemma handleChange_field (n m : RegisterPage.InputName) (value : string)
    (p : RegisterPage.state) :
  form_field n (RegisterPage.formData (RegisterPage.handleChange m value p)) =
  if same_input m n then value else form_field n (RegisterPage.formData p).
Proof. destruct n, m; reflexivity. Qed.

Lemma type_all_field (n : RegisterPage.InputName)
    (edits : list (RegisterPage.InputName * string)) :
  forall p,
    form_field n (RegisterPage.formData (type_all edits p)) =
    default (form_field n (RegisterPage.formData p))
            (last (typed_into n edits)).
Proof.
  unfold type_all, typed_into.
  induction edits as [|[m value] edits IH]; intros p; [reflexivity|].
  cbn. rewrite IH, handleChange_field.
  destruct (same_input m n); [|reflexivity].
  destruct (omap _ edits) as [|x l] eqn:E; [reflexivity|].
  rewrite last_cons_cons.
  destruct (last (x :: l)) eqn:El; [reflexivity|].
  apply last_None in El. discriminate El.
Qed.

(** X8: after any sequence of edits of the registration form, every
    field holds the last value typed into its input, or its earlier value
    when nothing was typed there; the login that follows a fulfilled
    registration is posted with the e-mail and password so obtained. *)
Theorem handleChange_last_write (BACKEND_URL : string)
    (edits : list (RegisterPage.InputName * string))
    (p : RegisterPage.state) (s : AuthState) (win : Window)
    (v : unit) (loggedIn : Reply LoginPage.LoginData) :
  let typed := type_all edits p in
  let was n := form_field n (RegisterPage.formData p) in
  (forall n, form_field n (RegisterPage.formData typed) =
             default (was n) (last (typed_into n edits))) /\
  form <$> last (wire (RegisterPage.handleRegister BACKEND_URL (Fulfilled v)
                         loggedIn typed s win).2)
    = Some (Some (Credentials
                    (default (was RegisterPage.Email)
                       (last (typed_into RegisterPage.Email edits)))
                    (default (was RegisterPage.Password)
                       (last (typed_into RegisterPage.Password edits))))).
Proof.
  intros typed was. subst typed was. cbv beta.
  split; [intros n; apply type_all_field|].
  rewrite <- (type_all_field RegisterPage.Email edits p).
  rewrite <- (type_all_field RegisterPage.Password edits p).
  unfold RegisterPage.handleRegister.
  destruct loggedIn; simpl; now rewrite !last_snoc.
Qed.

(** ** Loading the catalogue *)

Lemma arrive_settles (now arrival : Arrival) (first : Reply (list Product))
    (c c' : Catalogue.state) (win win' : Window) :
  Catalogue.arrive now arrival first (c, win) = (c', win') ->
  c' = (if decide (now = arrival)
        then match first with
             | Fulfilled value => Catalogue.setProducts value c
             | Rejected _ => c
             end
        else c) /\
  silenced win' = silenced win.
Proof.
  unfold Catalogue.arrive, Catalogue.fetchProducts_reply.
  destruct (decide (now = arrival)); [destruct first|];
    intros [= <- <-]; split; reflexivity.
Qed.

Lemma fetchProducts_reply_settles (reply : Reply (list Product))
    (c c' : Catalogue.state) (win win' : Window) :
  Catalogue.fetchProducts_reply reply c win = (c', win') ->
  c' = match reply with
       | Fulfilled value => Catalogue.setProducts value c
       | Rejected _ => c
       end /\
  silenced win' = silenced win.
Proof.
  unfold Catalogue.fetchProducts_reply.
  destruct reply; intros [= <- <-]; split; reflexivity.
Qed.

Lemma fetchCategories_reply_settles (reply : Reply (list Category))
    (c c' : Catalogue.state) (win win' : Window) :
  Catalogue.fetchCategories_reply reply c win = (c', win') ->
  c' = match reply with
       | Fulfilled value => Catalogue.setCategories value c
       | Rejected _ => c
       end /\
  silenced win' = silenced win.
Proof.
  unfold Catalogue.fetchCategories_reply.
  destruct reply; intros [= <- <-]; split; reflexivity.
Qed.

Lemma silenced_call (v : Verb) (u : string) (q : list (string * string))
    (f : option FormBody) (win win' : Window) :
  silenced win' = silenced win ->
  silenced (call v u q f win') = call v u q f (silenced win).
Proof.
  intros H. unfold call, silenced, in_browser in *. simpl.
  injection H as Hl Hh Ha Hs Hw Hp. now rewrite Hh, Hw, Hp, Hl, Ha, Hs.
Qed.

(** X9: mounting the products page sends four requests, in this order
    and whatever the replies: the seed request and the unfiltered
    products request of the second effect at once, then the categories
    request, then the unfiltered products request of [initData].  No
    dialog is shown, loading ends off, the selection is still empty and
    the categories are those of the fulfilled reply, else none.  The
    products listed are those of the fulfilled products reply handled
    last, which is the one of the second effect only when it arrives
    after the other; when one of the two is rejected they are those of
    the other, and when both are, none. *)
Theorem mount_always_finishes (BACKEND_URL : string)
    (seeded : Reply unit) (cats : Reply (list Category))
    (prods first : Reply (list Product)) (arrival : Arrival) (win : Window) :
  let r := Catalogue.mount BACKEND_URL seeded cats prods first arrival win in
  let auth := axios_headers (browser win) !! "Authorization" in
  let or_none (reply : Reply (list Product)) (otherwise : list Product) :=
    match reply with
    | Fulfilled value => value
    | Rejected _ => otherwise
    end in
  pp_loading (Catalogue.page r.1) = false /\
  pp_selectedCategory (Catalogue.page r.1) = "" /\
  wire r.2 =
    (wire win ++
     [ {| verb := Post; target := (API BACKEND_URL ++ "/init-data")%string;
          query := []; credential := auth; form := None |};
       {| verb := Get; target := (API BACKEND_URL ++ "/products")%string;
          query := []; credential := auth; form := None |};
       {| verb := Get; target := (API BACKEND_URL ++ "/categories")%string;
          query := []; credential := auth; form := None |};
       {| verb := Get; target := (API BACKEND_URL ++ "/products")%string;
          query := []; credential := auth; form := None |} ])%list /\
  alerts (browser r.2) = alerts (browser win) /\
  localStorage (browser r.2) = localStorage (browser win) /\
  pathname r.2 = pathname win /\
  Catalogue.categories r.1 =
    match cats with
    | Fulfilled value => value
    | Rejected _ => []
    end /\
  pp_products (Catalogue.page r.1) =
    match arrival with
    | AfterProducts => or_none first (or_none prods [])
    | _ => or_none prods (or_none first [])
    end.
Proof.
  intros r auth or_none. subst r auth or_none. unfold Catalogue.mount.
  destruct (Catalogue.arrive BeforeSeed _ _ _) as [c1 win3] eqn:E1.
  apply arrive_settles in E1 as [-> S1].
  match goal with
  | |- context [Catalogue.fetchCategories_request _ ?w] =>
      assert (S2 : silenced w = silenced win3) by now destruct seeded
  end.
  destruct (Catalogue.arrive BeforeCategories _ _ _) as [c2 win5] eqn:E2.
  apply arrive_settles in E2 as [-> S3].
  destruct (Catalogue.fetchCategories_reply _ _ _) as [c3 win6] eqn:E3.
  apply fetchCategories_reply_settles in E3 as [-> S4].
  destruct (Catalogue.arrive BeforeProducts _ _ _) as [c4 win7] eqn:E4.
  apply arrive_settles in E4 as [-> S5].
  destruct (Catalogue.fetchProducts_reply _ _ _) as [c5 win8] eqn:E5.
  apply fetchProducts_reply_settles in E5 as [-> S6].
  destruct (Catalogue.arrive AfterProducts _ _ _) as [c6 win9] eqn:E6.
  apply arrive_settles in E6 as [-> S7].
  assert (Hwin : silenced win9 =
                 call Get (API BACKEND_URL ++ "/products") [] None
                   (call Get (API BACKEND_URL ++ "/categories") [] None
                      (call Get (API BACKEND_URL ++ "/products") [] None
                         (call Post (API BACKEND_URL ++ "/init-data") [] None
                            (silenced win))))).
  { rewrite S7, S6, S5. unfold Catalogue.fetchProducts_request.
    change (Catalogue.params "") with (@nil (string * string)).
    rewrite (silenced_call _ _ _ _ _ _ S4), S3.
    unfold Catalogue.fetchCategories_request.
    rewrite (silenced_call _ _ _ _ _ _ S2), S1.
    unfold Catalogue.fetchProducts_request.
    change (Catalogue.params (pp_selectedCategory (Catalogue.page Catalogue.init)))
      with (@nil (string * string)).
    now rewrite !(silenced_call _ _ _ _ _ _ eq_refl). }
  cbn [fst snd].
  change (wire win9) with (wire (silenced win9)).
  change (pathname win9) with (pathname (silenced win9)).
  change (alerts (browser win9)) with (alerts (browser (silenced win9))).
  change (localStorage (browser win9))
    with (localStorage (browser (silenced win9))).
  rewrite Hwin. clear.
  split; [destruct arrival, cats, prods, first; reflexivity|].
  split; [destruct arrival, cats, prods, first; reflexivity|].
  split; [simpl; now rewrite <- !app_assoc|].
  split; [reflexivity|]. split; [reflexivity|]. split; [reflexivity|].
  split; destruct arrival, cats, prods, first; reflexivity.
Qed.

(** X10: choosing the category that is already selected sends nothing.
    Choosing another one sends exactly one request, the read of the
    products with that category as the [category_id] query and the
    default credential; choosing "All Categories" (the empty string)
    sends it with no query at all.  When the request is rejected the page
    keeps the products it listed before, while the selected category is
    already the new one; no dialog is shown. *)
Theorem selectCategory_query (BACKEND_URL categoryId : string)
    (reply : Reply (list Product)) (c : Catalogue.state) (win : Window) :
  let r := Catalogue.selectCategory BACKEND_URL categoryId reply c win in
  (categoryId = pp_selectedCategory (Catalogue.page c) -> r = (c, win)) /\
  (categoryId <> pp_selectedCategory (Catalogue.page c) ->
   pp_selectedCategory (Catalogue.page r.1) = categoryId /\
   wire r.2 =
     (wire win ++
      [ {| verb := Get; target := (API BACKEND_URL ++ "/products")%string;
           query := if String.eqb categoryId "" then []
                    else [("category_id", categoryId)];
           credential := axios_headers (browser win) !! "Authorization";
           form := None |} ])%list /\
   alerts (browser r.2) = alerts (browser win) /\
   Catalogue.categories r.1 = Catalogue.categories c /\
   pp_loading (Catalogue.page r.1) = pp_loading (Catalogue.page c) /\
   (forall error, reply = Rejected error ->
      pp_products (Catalogue.page r.1) = pp_products (Catalogue.page c)) /\
   (forall value, reply = Fulfilled value ->
      pp_products (Catalogue.page r.1) = value)).
Proof.
  unfold Catalogue.selectCategory, Catalogue.fetchProducts,
    Catalogue.fetchProducts_reply, Catalogue.fetchProducts_request,
    Catalogue.params.
  destruct (String.eqb_spec categoryId (pp_selectedCategory (Catalogue.page c)))
    as [Heq|Hne]; (split; [intros H|intros H]);
    try contradiction; try reflexivity.
  destruct reply as [value|error]; simpl;
    (split; [reflexivity|]);
    (split; [destruct (String.eqb categoryId ""); reflexivity|]);
    (split; [reflexivity|]); (split; [reflexivity|]);
    (split; [reflexivity|]); split;
    intros x Hx; try discriminate Hx; try reflexivity.
  now injection Hx as <-.
Qed.

(** ** Order history *)

(** X11: a fetch of the orders page ends the loading state in both
    outcomes.  A rejected fetch shows no dialog and renders what a
    fulfilled fetch returning the orders held before would render; on the
    first fetch that is the "No orders yet" view of an empty history.  A
    fulfilled fetch renders exactly the orders returned. *)
Theorem failed_orders_fetch_looks_empty (BACKEND_URL : string)
    (error : AxiosError) (p : OrdersPage.state) (win : Window) :
  let failed := OrdersPage.fetchOrders BACKEND_URL (Rejected error) p win in
  OrdersPage.view failed.1 <> OrdersPage.Spinner /\
  OrdersPage.view failed.1 =
    OrdersPage.view
      (OrdersPage.fetchOrders BACKEND_URL (Fulfilled (OrdersPage.orders p))
         p win).1 /\
  (p = OrdersPage.init -> OrdersPage.view failed.1 = OrdersPage.NoOrders) /\
  alerts (browser failed.2) = alerts (browser win) /\
  (forall value,
     OrdersPage.view
       (OrdersPage.fetchOrders BACKEND_URL (Fulfilled value) p win).1
     = match value with
       | [] => OrdersPage.NoOrders
       | _ :: _ => OrdersPage.OrdersList value
       end).
Proof.
  unfold OrdersPage.fetchOrders, OrdersPage.view. simpl.
  split; [destruct (OrdersPage.orders p); discriminate|].
  split; [reflexivity|]. split; [now intros ->|].
  split; [reflexivity|]. now intros [|o os].
Qed.

(** ** The admin panel *)

(** X12: [updateOrderStatus] sends the update for every order id and
    every status, with the status as query and no body.  When the update
    is fulfilled the orders are refetched and the success dialog is
    shown, also when that refetch is rejected, in which case the listed
    orders are the ones from before.  When the update is rejected nothing
    is refetched, the state is untouched and the dialog reports the
    error. *)
Theorem updateOrderStatus_outcomes (BACKEND_URL orderId status : string)
    (updated : Reply unit) (ordersReply : Reply (list Order))
    (p : AdminPanel.state) (win : Window) :
  let r := AdminPanel.updateOrderStatus BACKEND_URL orderId status updated
             ordersReply p win in
  let auth := axios_headers (browser win) !! "Authorization" in
  let put_call :=
    {| verb := Put;
       target := (API BACKEND_URL ++ "/admin/orders/" ++ orderId ++ "/status")%string;
       query := [("status", status)]; credential := auth; form := None |} in
  let get_call :=
    {| verb := Get; target := (API BACKEND_URL ++ "/admin/orders")%string;
       query := []; credential := auth; form := None |} in
  (forall v, updated = Fulfilled v ->
     wire r.2 = (wire win ++ [put_call; get_call])%list /\
     alerts (browser r.2) =
       (alerts (browser win) ++ ["Order status updated successfully"])%list /\
     AdminPanel.orders r.1 =
       match ordersReply with
       | Fulfilled value => value
       | Rejected _ => AdminPanel.orders p
       end) /\
  (forall error, updated = Rejected error ->
     wire r.2 = (wire win ++ [put_call])%list /\
     r.1 = p /\
     alerts (browser r.2) =
       (alerts (browser win) ++
        [ ("Error updating order status: " ++
           or_else (error_detail error) "Unknown error")%string ])%list).
Proof.
  unfold AdminPanel.updateOrderStatus, AdminPanel.fetchOrders.
  destruct updated as [v|e]; split.
  - intros v' _. destruct ordersReply; simpl; rewrite <- app_assoc;
      repeat split.
  - intros e' He'. discriminate He'.
  - intros v' Hv'. discriminate Hv'.
  - intros e' [= <-]. repeat split.
Qed.

(** X13: the effect on the active tab sends exactly one request, the
    list of that tab, when the tab is one of [orders], [users] and
    [products], and nothing otherwise; it never shows a dialog, and it
    changes at most the list of the active tab, so the lists of the other
    tabs and the tab itself are kept. *)
Theorem tab_effect_frame (BACKEND_URL : string)
    (ordersReply : Reply (list Order)) (usersReply : Reply (list User))
    (productsReply : Reply (list Product))
    (p : AdminPanel.state) (win : Window) :
  let r := AdminPanel.tab_effect BACKEND_URL ordersReply usersReply
             productsReply p win in
  let tab := AdminPanel.activeTab p in
  AdminPanel.activeTab r.1 = tab /\
  alerts (browser r.2) = alerts (browser win) /\
  (verb <$> drop (length (wire win)) (wire r.2),
   target <$> drop (length (wire win)) (wire r.2)) =
    (if String.eqb tab "orders"
     then ([Get], [(API BACKEND_URL ++ "/admin/orders")%string])
     else if String.eqb tab "users"
     then ([Get], [(API BACKEND_URL ++ "/admin/users")%string])
     else if String.eqb tab "products"
     then ([Get], [(API BACKEND_URL ++ "/products")%string])
     else ([], [])) /\
  (tab <> "orders" -> AdminPanel.orders r.1 = AdminPanel.orders p) /\
  (tab <> "users" -> AdminPanel.users r.1 = AdminPanel.users p) /\
  (tab <> "products" -> AdminPanel.products r.1 = AdminPanel.products p).
Proof.
  unfold AdminPanel.tab_effect, AdminPanel.fetchOrders,
    AdminPanel.fetchUsers, AdminPanel.fetchProducts.
  destruct (String.eqb_spec (AdminPanel.activeTab p) "orders") as [Ho|Ho];
    [|destruct (String.eqb_spec (AdminPanel.activeTab p) "users") as [Hu|Hu];
      [|destruct (String.eqb_spec (AdminPanel.activeTab p) "products")
          as [Hp|Hp]]].
  - destruct ordersReply; simpl; rewrite drop_app_length;
      repeat split; try reflexivity; intros H; try contradiction; reflexivity.
  - destruct usersReply; simpl; rewrite drop_app_length;
      repeat split; try reflexivity; intros H; try contradiction; reflexivity.
  - destruct productsReply; simpl; rewrite drop_app_length;
      repeat split; try reflexivity; intros H; try contradiction; reflexivity.
  - simpl. rewrite drop_all. repeat split.
Qed.

(** ** Fetching the cart *)

Lemma promise_all_rejected {A : Type} (reply : nat -> Reply A) (n : nat) :
  forall start i e,
    i < n -> reply (start + i) = Rejected e ->
    exists e', promise_all (map reply (seq start n)) = Rejected e'.
Proof.
  induction n as [|n IH]; intros start i e Hi He; [lia|].
  cbn [seq map promise_all].
  destruct (reply start) as [v|e0] eqn:Hs; [|eauto].
  destruct i as [|i].
  - rewrite Nat.add_0_r, Hs in He. discriminate He.
  - destruct (IH (S start) i e) as [e' He']; [lia| |].
    + now rewrite Nat.add_succ_comm.
    + rewrite He'. eauto.
Qed.

Lemma line_amount_no_products (item : CartItem) :
  line_amount ∅ item =
  if decide (names_inherited item) then nan else 0%float.
Proof.
  unfold line_amount, names_inherited.
  rewrite js_get_plain by apply lookup_empty.
  destruct (decide _); reflexivity.
Qed.

Lemma sum_from_no_products (items : list CartItem) :
  (sum_from 0%float (map (line_amount ∅) items) =
   if decide (Exists names_inherited items) then nan else 0%float) /\
  sum_from nan (map (line_amount ∅) items) = nan.
Proof.
  induction items as [|item items [IH0 IHn]]; cbn [map sum_from].
  - split; [|reflexivity].
    destruct (decide _) as [H|_]; [inversion H|reflexivity].
  - rewrite line_amount_no_products.
    destruct (decide (names_inherited item)) as [Hi|Hi].
    + change (0 + nan)%float with nan. change (nan + nan)%float with nan.
      split; [|exact IHn].
      rewrite IHn.
      destruct (decide (Exists names_inherited (item :: items))) as [_|H];
        [reflexivity|].
      exfalso. apply H. now left.
    + change (0 + 0)%float with 0%float. change (nan + 0)%float with nan.
      split; [|exact IHn].
      rewrite IH0. destruct (decide (Exists _ items)) as [He|He];
        destruct (decide (Exists _ (item :: items))) as [He'|He'];
        try reflexivity.
      * exfalso. apply He'. now right.
      * exfalso. apply Exists_cons in He' as [?|?]; contradiction.
Qed.

Lemma filter_no_products (items : list CartItem) :
  filter (fun item => is_truthy (js_get ∅ (product_id item)) = true) items =
  filter names_inherited items.
Proof.
  apply filter_iff_in. intros item _.
  unfold names_inherited.
  rewrite js_get_plain by apply lookup_empty.
  destruct (decide _); simpl; split; intros; try assumption;
    try reflexivity; try discriminate; contradiction.
Qed.

(** X14: when the cart arrives but one of the product requests is
    rejected, the rows are replaced by the new ones while the product map
    stays the one from before, and loading ends.  On the first load, when
    the map is still the empty object, the rows rendered are those whose
    product id names a property every object inherits ([toString],
    [constructor], ...), and the order summary is shown for the rows that
    arrived: when no row has such an id, nothing is rendered and the
    summary shows a subtotal of 0 and a total of 49; when one has, the
    subtotal and the total are NaN. *)
Theorem fetchCart_product_rejected (BACKEND_URL : string)
    (items : list CartItem) (product : nat -> Reply Product)
    (s : CartState) (w : Browser) (i : nat) (error : AxiosError) :
  i < length items -> product i = Rejected error ->
  let s' := (fetchCart BACKEND_URL (Fulfilled items) product s w).1 in
  cartItems s' = items /\ products s' = products s /\ loading s' = false /\
  (products s = ∅ ->
     rendered_items s' = filter names_inherited items /\
     (getTotalPrice s' =
      if decide (Exists names_inherited items) then nan else 0%float) /\
     order_summary s' =
       Some (if decide (Exists names_inherited items)
             then {| subtotal := nan; delivery := "49"; total := nan |}
             else {| subtotal := 0%float; delivery := "49";
                     total := 49%float |})).
Proof.
  intros Hi He.
  destruct (promise_all_rejected product (length items) 0 i error Hi He)
    as [e' He'].
  unfold fetchCart. simpl. rewrite length_map, He'. simpl.
  split; [reflexivity|]. split; [reflexivity|]. split; [reflexivity|].
  intros Hempty.
  assert (Ht : getTotalPrice
                 {| cartItems := items; products := products s;
                    loading := false |} =
               if decide (Exists names_inherited items)
               then nan else 0%float).
  { rewrite getTotalPrice_sum. simpl. rewrite Hempty.
    apply sum_from_no_products. }
  split; [|split].
  - unfold rendered_items. simpl. rewrite Hempty. apply filter_no_products.
  - exact Ht.
  - unfold order_summary. simpl.
    destruct items as [|item items]; [simpl in Hi; lia|].
    rewrite Ht. destruct (decide _); reflexivity.
Qed.

Lemma fetchCart_product_rejected_witness :
  let s' := (fetchCart "http://localhost:8001"
               (Fulfilled (cartItems one_line_cart))
               (fun _ => Rejected not_found)
               {| cartItems := []; products := ∅; loading := true |} blank).1 in
  cartItems s' = cartItems one_line_cart /\ getTotalPrice s' = 0%float /\
  rendered_items s' = [].
Proof.
  destruct (fetchCart_product_rejected "http://localhost:8001"
              (cartItems one_line_cart) (fun _ => Rejected not_found)
              {| cartItems := []; products := ∅; loading := true |} blank
              0 not_found ltac:(simpl; lia) eq_refl)
    as [Hitems [_ [_ Hfirst]]].
  destruct (Hfirst eq_refl) as [Hr [Ht _]].
  split; [exact Hitems|]. split; [exact Ht|exact Hr].
Defined.

Lemma filter_all {A : Type} (P : A -> Prop) `{forall x, Decision (P x)}
    (l : list A) :
  (forall x, x ∈ l -> P x) -> filter P l = l.
Proof.
  induction l as [|x l IH]; intros Hall; [reflexivity|].
  rewrite filter_cons_True by (apply Hall; left).
  f_equal. apply IH. intros y Hy. apply Hall. now right.
Qed.

Lemma product_map_last (responses : list Product) (k : string) :
  product_map responses !! k = last (filter (fun p => id p = k) responses).
Proof.
  unfold product_map.
  assert (H : forall (m0 : gmap string Product),
            fold_left (fun m p => <[id p := p]> m) responses m0 !! k =
            match last (filter (fun p => id p = k) responses) with
            | Some p => Some p
            | None => m0 !! k
            end).
  { induction responses as [|p ps IH]; intros m0; [reflexivity|].
    cbn [fold_left]. rewrite IH.
    destruct (decide (id p = k)) as [Hk|Hk].
    - rewrite filter_cons_True by assumption.
      destruct (filter _ ps) as [|q qs] eqn:E.
      + simpl. now rewrite <- Hk, lookup_insert_eq.
      + rewrite last_cons_cons.
        destruct (last (q :: qs)) eqn:El; [reflexivity|].
        apply last_None in El. discriminate El.
    - rewrite filter_cons_False by assumption.
      destruct (last _); [reflexivity|]. now apply lookup_insert_ne. }
  rewrite H, lookup_empty. now destruct (last _).
Qed.

Lemma last_filter_id (responses : list Product) (k : string) :
  (forall p, last (filter (fun p => id p = k) responses) = Some p ->
     p ∈ responses /\ id p = k) /\
  (last (filter (fun p => id p = k) responses) = None <->
   k ∉ map id responses).
Proof.
  split.
  - intros p Hl. apply last_Some_elem_of in Hl.
    now apply list_elem_of_filter in Hl as [Hk Hin].
  - rewrite last_None. split.
    + intros Hnil Hin.
      apply (list_elem_of_fmap_1 id) in Hin as [p [-> Hp]].
      assert (Hf : p ∈ filter (fun q => id q = id p) responses)
        by now apply list_elem_of_filter.
      rewrite Hnil in Hf. now apply elem_of_nil in Hf.
    + intros Hnin.
      destruct (filter (fun p => id p = k) responses) as [|q qs] eqn:E;
        [reflexivity|].
      exfalso. apply Hnin.
      assert (Hq : q ∈ filter (fun p => id p = k) responses)
        by (rewrite E; left).
      apply list_elem_of_filter in Hq as [<- Hq].
      now apply (list_elem_of_fmap_2 id).
Qed.

Lemma existsb_decide (k : string) (names : list string) :
  (if existsb (String.eqb k) names then Truthy else Falsy) =
  if decide (k ∈ names) then Truthy else Falsy.
Proof.
  pose proof (existsb_eqb_elem_of k names) as Hi.
  destruct (existsb _ names); destruct (decide _) as [Hin|Hin];
    try reflexivity.
  - exfalso. apply Hin, Hi. reflexivity.
  - apply Hi in Hin. discriminate Hin.
Qed.

Lemma js_get_product_map (responses : list Product) (k : string) :
  js_get (product_map responses) k = reads_as responses k.
Proof.
  unfold js_get, reads_as, inherited. rewrite !product_map_last.
  destruct (last (filter (fun p => id p = k) responses)); [reflexivity|].
  destruct (last (filter (fun p => id p = "__proto__") responses))
    as [proto|]; cbn [mbind option_bind].
  - destruct (product_property proto k) as [[|]|]; try reflexivity.
    exact (existsb_decide k object_prototype_names).
  - exact (existsb_decide k object_prototype_names).
Qed.

(** X15: when the cart and every product request are fulfilled, each
    with the product that was asked for, the page shows the cart that was
    returned: loading is off, every row is rendered and reads, under its
    product id, a product that was returned for that id; an id that no
    row carries reads as nothing, unless it names a property every object
    inherits (this when no row carries [__proto__]); and nothing of the
    previous page state is left. *)
Theorem fetchCart_fulfilled_shows_all (BACKEND_URL : string)
    (items : list CartItem) (product : nat -> Reply Product)
    (s : CartState) (w : Browser) :
  (forall i item, items !! i = Some item ->
     exists p, product i = Fulfilled p /\ id p = product_id item) ->
  let s' := (fetchCart BACKEND_URL (Fulfilled items) product s w).1 in
  cartItems s' = items /\ loading s' = false /\
  rendered_items s' = items /\
  (forall item, item ∈ items ->
     exists i p, i < length items /\ product i = Fulfilled p /\
                 id p = product_id item /\
                 js_get (products s') (product_id item) = AProduct p) /\
  (forall k, k ∉ map product_id items ->
     "__proto__" ∉ map product_id items ->
     js_get (products s') k =
     if decide (k ∈ object_prototype_names) then Truthy else Falsy) /\
  (forall s0 w0,
     (fetchCart BACKEND_URL (Fulfilled items) product s0 w0).1 = s').
Proof.
  intros H.
  destruct (promise_all_fulfilled product
              (fun i p => product i = Fulfilled p /\
                 exists item, items !! i = Some item /\
                 id p = product_id item) (length items) 0)
    as [ps [Hps [Hlen Hall]]].
  { intros i Hi. destruct (lookup_lt_is_Some_2 items i Hi) as [item Hitem].
    destruct (H i item Hitem) as [p [Hp Hid]]. exists p. simpl. eauto. }
  assert (Hids : map id ps = map product_id items).
  { apply list_eq. intros i. change map with (@fmap list _) at 1 2.
    rewrite !list_lookup_fmap.
    destruct (ps !! i) as [p|] eqn:Hp.
    - destruct (Hall i p Hp) as [_ [item [Hi Hid]]]. simpl in Hi.
      rewrite Hi. simpl. now rewrite Hid.
    - apply lookup_ge_None in Hp. rewrite Hlen in Hp.
      apply lookup_ge_None in Hp. now rewrite Hp. }
  assert (Hrow : forall item, item ∈ items ->
            exists i p, i < length items /\ product i = Fulfilled p /\
                        id p = product_id item /\
                        js_get (product_map ps) (product_id item) = AProduct p).
  { intros item Hitem.
    destruct (last_filter_id ps (product_id item)) as [Hsome Hnone].
    rewrite js_get_product_map. unfold reads_as.
    destruct (last (filter _ ps)) as [p|] eqn:Hl.
    - destruct (Hsome p eq_refl) as [Hin Hid].
      apply list_elem_of_lookup in Hin as [i Hi].
      destruct (Hall i p Hi) as [Hp _]. simpl in Hp.
      exists i, p. split; [|auto].
      apply lookup_lt_Some in Hi. now rewrite <- Hlen.
    - exfalso. apply Hnone; [reflexivity|]. rewrite Hids.
      now apply (list_elem_of_fmap_2 product_id). }
  unfold fetchCart. simpl. rewrite length_map, Hps. simpl.
  split; [reflexivity|]. split; [reflexivity|].
  split; [|split; [|split]].
  - unfold rendered_items. simpl. apply filter_all.
    intros item Hitem. destruct (Hrow item Hitem) as [i [p [_ [_ [_ Hg]]]]].
    now rewrite Hg.
  - exact Hrow.
  - intros k Hk Hproto. rewrite <- Hids in Hk, Hproto.
    apply js_get_plain; rewrite product_map_last;
      now apply last_filter_id.
  - reflexivity.
Qed.

Lemma fetchCart_fulfilled_shows_all_witness :
  rendered_items
    (fetchCart "http://localhost:8001" (Fulfilled (cartItems one_line_cart))
       (fun _ => Fulfilled apples)
       {| cartItems := []; products := ∅; loading := true |} blank).1
  = cartItems one_line_cart.
Proof.
  apply (fetchCart_fulfilled_shows_all "http://localhost:8001"
           (cartItems one_line_cart) (fun _ => Fulfilled apples)
           {| cartItems := []; products := ∅; loading := true |} blank).
  intros [|i] item Hi; [|discriminate Hi].
  injection Hi as <-. exists apples. split; reflexivity.
Defined.

(** ** Removing a row that is in the cart *)

(** X16: when the delete is fulfilled and the refetch returns the cart
    without the rows of that id, each remaining row with the product the
    page already holds, the page shows the remaining rows, the id is
    gone from the cart, and the total is the sum of the line amounts of
    the remaining rows. *)
Theorem removeFromCart_removes_row (BACKEND_URL itemId : string)
    (product : nat -> Reply Product) (s : CartState) (w : Browser) :
  let remaining := filter (fun i => item_id i <> itemId) (cartItems s) in
  (forall i item, remaining !! i = Some item ->
     exists p, product i = Fulfilled p /\ id p = product_id item /\
               products s !! product_id item = Some p) ->
  let r := removeFromCart BACKEND_URL itemId (Fulfilled tt)
             (Fulfilled remaining) product s w in
  cartItems r.1 = remaining /\
  (itemId ∉ map item_id (cartItems r.1)) /\
  getTotalPrice r.1 = js_sum (map (line_amount (products s)) remaining).
Proof.
  intros remaining Hsync r. subst r. unfold removeFromCart.
  destruct (refetch_same_total BACKEND_URL remaining product s
              (axios DELETE (API BACKEND_URL ++ "/cart/" ++ itemId) None w)
              Hsync) as [Hitems Hsum].
  split; [exact Hitems|]. split.
  - rewrite Hitems. intros Hin.
    apply (list_elem_of_fmap_1 item_id) in Hin as [item [-> Hitem]].
    apply list_elem_of_filter in Hitem as [Hne _]. now apply Hne.
  - rewrite getTotalPrice_sum, Hitems. exact Hsum.
Qed.

Lemma removeFromCart_removes_row_witness :
  let s := cart_of whole_prices rows_whole in
  let r := removeFromCart "http://localhost:8001" "c2" (Fulfilled tt)
             (Fulfilled [ row "c1" "p-apple" 2%float;
                          row "c3" "p-honey" 3%float ])
             (catalogue_reply whole_prices
                [ row "c1" "p-apple" 2%float; row "c3" "p-honey" 3%float ])
             s blank in
  cartItems r.1 = [ row "c1" "p-apple" 2%float; row "c3" "p-honey" 3%float ] /\
  ("c2" ∉ map item_id (cartItems r.1)) /\
  getTotalPrice r.1 = 1290%float.
Proof.
  destruct (removeFromCart_removes_row "http://localhost:8001" "c2"
              (catalogue_reply whole_prices
                 [ row "c1" "p-apple" 2%float; row "c3" "p-honey" 3%float ])
              (cart_of whole_prices rows_whole) blank) as [H1 [H2 H3]].
  - intros [|[|i]] item Hi; try discriminate Hi; injection Hi as <-;
      eexists; repeat split.
  - split; [exact H1|]. split; [exact H2|].
    etransitivity; [exact H3|]. vm_compute. reflexivity.
Defined.

(** ** The checkout button *)

(** X17: the checkout button is part of the order summary, and the
    summary is rendered only for a loaded, non-empty cart; so whenever
    the button can be clicked [proceedToCheckout] shows the
    not-implemented notice, never the empty-cart one, and sends
    nothing. *)
Theorem checkout_never_reports_empty (s : CartState) (w : Browser)
    (o : OrderSummary) :
  order_summary s = Some o ->
  cartItems s <> [] /\
  alerts (proceedToCheckout s w) =
    (alerts w ++
     ["Proceeding to checkout... (Feature to be implemented)"])%list /\
  sent (proceedToCheckout s w) = sent w.
Proof.
  unfold order_summary, proceedToCheckout.
  destruct (loading s); [discriminate|].
  destruct (cartItems s); [discriminate|].
  intros _. repeat split. discriminate.
Qed.

Lemma checkout_never_reports_empty_witness :
  alerts (proceedToCheckout one_line_cart blank) =
    ["Proceeding to checkout... (Feature to be implemented)"].
Proof.
  apply (checkout_never_reports_empty one_line_cart blank
           {| subtotal := 240%float; delivery := "49"; total := 289%float |}).
  vm_compute. reflexivity.
Defined.

(** ** Totals and counts *)

Lemma sum_from_nat_values (xs : list number) :
  forall acc k n,
    nat_value acc = Some k ->
    exact_sum (map nat_value xs) = Some n ->
    (k + n <= 2 ^ 53)%Z ->
    nat_value (sum_from acc xs) = Some (k + n)%Z.
Proof.
  induction xs as [|x xs IH]; intros acc k n Hacc; cbn [map exact_sum sum_from].
  - intros [= <-] _. now rewrite Z.add_0_r.
  - destruct (nat_value x) as [a|] eqn:Ha; [|discriminate].
    destruct (exact_sum _) as [t|] eqn:Ht; [|discriminate].
    intros [= <-] Hle.
    pose proof (nat_value_nonneg x a Ha) as Ha0.
    pose proof (nat_value_nonneg acc k Hacc) as Hk0.
    assert (Ht0 : (0 <= t)%Z).
    { clear -Ht. revert t Ht.
      induction xs as [|y ys IHy]; intros t; cbn [map exact_sum].
      - intros [= <-]. lia.
      - destruct (nat_value y) as [b|] eqn:Hb; [|discriminate].
        destruct (exact_sum _) as [u|]; [|discriminate].
        intros [= <-]. apply nat_value_nonneg in Hb.
        specialize (IHy u eq_refl). lia. }
    rewrite Z.add_assoc. apply IH; [|reflexivity|lia].
    apply add_exact; [assumption|assumption|lia].
Qed.

(** X19: when every quantity in the fetched cart is a non-negative
    integer and they add up to at most 2^53, the count of the navigation
    badge is exactly that integer, and a backend that returns the same
    rows in another order gives the same count. *)
Theorem cart_count_exact (BACKEND_URL : string) (s : AuthState) (u : User)
    (items items' : list CartItem) (n : Z)
    (cartCount : number) (w : Browser) :
  user s = Some u ->
  exact_count items = Some n -> (n <= 2 ^ 53)%Z ->
  items ≡ₚ items' ->
  nat_value (fetchCartCount BACKEND_URL (Fulfilled items) s cartCount w).1
    = Some n /\
  (fetchCartCount BACKEND_URL (Fulfilled items') s cartCount w).1
    = (fetchCartCount BACKEND_URL (Fulfilled items) s cartCount w).1.
Proof.
  intros Hu Hn Hle Hperm.
  assert (Hn' : exact_count items' = Some n).
  { rewrite <- Hn. unfold exact_count. symmetry.
    apply exact_sum_perm. now apply Permutation_map. }
  assert (Hcount : forall l, exact_count l = Some n ->
            nat_value (fetchCartCount BACKEND_URL (Fulfilled l) s cartCount w).1
            = Some n).
  { intros l Hl. unfold fetchCartCount. rewrite Hu. simpl.
    rewrite reduce_sum_from.
    unfold exact_count in Hl. rewrite <- (map_map quantity nat_value) in Hl.
    exact (sum_from_nat_values (map quantity l) 0%float 0%Z n eq_refl Hl Hle). }
  split; [now apply Hcount|].
  apply (nat_value_inj _ _ n); now apply Hcount.
Qed.

Lemma cart_count_exact_witness :
  nat_value (fetchCartCount "http://localhost:8001" (Fulfilled rows_whole)
               shopper 0%float blank).1 = Some 6%Z /\
  (fetchCartCount "http://localhost:8001" (Fulfilled rows_whole_backward)
     shopper 0%float blank).1
  = (fetchCartCount "http://localhost:8001" (Fulfilled rows_whole)
       shopper 0%float blank).1.
Proof.
  apply (cart_count_exact "http://localhost:8001" shopper
           {| user_id := "u1"; user_name := "Asha";
              user_email := "asha@example.com"; user_role := "customer" |}
           rows_whole rows_whole_backward 6%Z 0%float blank).
  - reflexivity.
  - vm_compute. reflexivity.
  - vm_compute. discriminate.
  - unfold rows_whole, rows_whole_backward.
    etransitivity; [apply perm_skip, perm_swap|].
    etransitivity; [apply perm_swap|].
    apply perm_skip, perm_swap.
Defined.

(** ** Two more facts about the stores *)

(** X20: a login replaces the session entirely: logging in as a second
    user after a first login gives the same session, stored token and
    credential header as logging in as the second user directly. *)
Theorem login_replaces_session (u1 u2 : User) (t1 t2 : string)
    (s : AuthState) (w : Browser) :
  let first := login u1 t1 s w in
  let r := login u2 t2 first.1 first.2 in
  let direct := login u2 t2 s w in
  r.1 = direct.1 /\
  localStorage r.2 = localStorage direct.2 /\
  axios_headers r.2 = axios_headers direct.2 /\
  localStorage r.2 !! "token" = Some t2 /\
  axios_headers r.2 !! "Authorization" = Some ("Bearer " ++ t2)%string.
Proof.
  unfold login, setItem, set_header. simpl.
  rewrite !insert_insert_eq, !lookup_insert_eq. repeat split.
Qed.

